(** * flashfinance: the two Gemini proxy functions

    A shallow embedding of the two serverless handlers of the repository,

    - [netlify/get-news.js]: the raw-payload proxy with a bounded
      exponential-backoff retry loop (module [GetNews]);
    - the second, typed-intent handler ([fetch] / [summarize]) that makes a
      single upstream call (module [Part000]).

    JavaScript data is modelled by the inductive type [value]; the runtime
    built-ins [JSON.parse] and [JSON.stringify] are executable functions on
    byte strings; the handlers are written in a small state-and-exception
    monad whose state records every observable effect (outbound calls,
    timers, console output) in the order in which it happens. *)

From Stdlib Require Import List String Ascii ZArith NArith Bool Lia.
From Stdlib Require Import DecimalString.
Import ListNotations.
Local Open Scope list_scope.
Local Open Scope string_scope.
Set Warnings "-register-all".

(** ** JavaScript values *)

(** A JSON number is kept as the exact decimal it was written as,
    [(-1)^neg * digits * 10^exp10].  The only thing the handlers do with a
    number is to test its truthiness, which [num_is_zero] decides exactly,
    underflow of the IEEE-754 double included. *)
Record number : Type := mkNumber {
  num_neg    : bool;
  num_digits : N;
  num_exp10  : Z
}.

Inductive value : Type :=
| VUndefined
| VNull
| VBool   (b : bool)
| VNumber (n : number)
| VString (s : string)
| VArray  (elems : list value)
| VObject (props : list (string * value)).

(** The decimal [d * 10^e] converts to the double [0] exactly when it is at
    most half of the least subnormal, [2^-1075] (a tie rounds to even). *)
Definition num_is_zero (n : number) : bool :=
  (num_digits n =? 0)%N
  || ((num_exp10 n <? 0)%Z
      && (Z.of_N (num_digits n) * 2 ^ 1075 <=? 10 ^ (- num_exp10 n))%Z).

(** [ToBoolean]. *)
Definition truthy (v : value) : bool :=
  match v with
  | VUndefined | VNull => false
  | VBool b => b
  | VNumber n => negb (num_is_zero n)
  | VString s => negb (s =? "")
  | VArray _ | VObject _ => true
  end.

(** Strict equality with a string literal, [v === 'lit']. *)
Definition strict_eq_string (v : value) (lit : string) : bool :=
  match v with
  | VString s => s =? lit
  | _ => false
  end.

(** *** Thrown values *)

Record exn : Type := mkExn { exn_name : string; exn_message : string }.

(** [new Error(msg)]. *)
Definition new_Error (msg : string) : exn := mkExn "Error" msg.

(** The texts of the engine's own errors vary with the engine; no handler
    ever reads them. *)
Definition SyntaxError : exn := mkExn "SyntaxError" "Unexpected token in JSON".
Definition TypeError_null (p : string) : exn :=
  mkExn "TypeError" ("Cannot read properties of null (reading '" ++ p ++ "')").
Definition TypeError_undefined (p : string) : exn :=
  mkExn "TypeError"
        ("Cannot read properties of undefined (reading '" ++ p ++ "')").

(** *** Objects: ordered own properties *)

Fixpoint all_digits (s : string) : bool :=
  match s with
  | EmptyString => true
  | String c r => (("0" <=? c)%char && (c <=? "9")%char) && all_digits r
  end.

Fixpoint digits_value (acc : N) (s : string) : N :=
  match s with
  | EmptyString => acc
  | String c r => digits_value (10 * acc + (N_of_ascii c - 48))%N r
  end.

(** The canonical array indices [0 .. 2^32 - 2]: these keys are enumerated
    first, in ascending order, before all other keys. *)
Definition array_index (k : string) : option N :=
  match k with
  | EmptyString => None
  | String c r =>
      if all_digits k && ((k =? "0") || negb (c =? "0")%char)
         && (String.length k <=? 10)%nat
      then let n := digits_value 0 k in
           if (n <=? 4294967294)%N then Some n else None
      else None
  end.

Fixpoint own (props : list (string * value)) (k : string) : option value :=
  match props with
  | [] => None
  | (k', v) :: r => if k' =? k then Some v else own r k
  end.

Fixpoint replace_prop (props : list (string * value)) (k : string) (v : value)
  : list (string * value) :=
  match props with
  | [] => []
  | (k', v') :: r =>
      if k' =? k then (k', v) :: r else (k', v') :: replace_prop r k v
  end.

Fixpoint insert_index (props : list (string * value)) (i : N) (k : string)
  (v : value) : list (string * value) :=
  match props with
  | [] => [(k, v)]
  | (k', v') :: r =>
      match array_index k' with
      | Some j => if (j <? i)%N then (k', v') :: insert_index r i k v
                  else (k, v) :: props
      | None => (k, v) :: props
      end
  end.

(** [o[k] = v] on an ordinary object: an existing key keeps its place, a new
    array index goes among the indices, any other new key goes last. *)
Definition obj_set (props : list (string * value)) (k : string) (v : value)
  : list (string * value) :=
  match own props k with
  | Some _ => replace_prop props k v
  | None =>
      match array_index k with
      | Some i => insert_index props i k v
      | None => (props ++ [(k, v)])%list
      end
  end.

(** [v.p] for a property name [p] that no built-in prototype defines (the
    handlers read [contents], [type] and [textToSummarize] only): the own
    property of an object, [undefined] on every other value, and a
    [TypeError] on [null] and [undefined]. *)
Definition member (v : value) (p : string) : exn + value :=
  match v with
  | VUndefined => inl (TypeError_undefined p)
  | VNull => inl (TypeError_null p)
  | VObject props =>
      inr match own props p with Some x => x | None => VUndefined end
  | _ => inr VUndefined
  end.

(** ** Decimal text of integers (template literals) *)

Definition string_of_Z (z : Z) : string :=
  NilZero.string_of_int (Z.to_int z).

Definition string_of_nat (n : nat) : string := string_of_Z (Z.of_nat n).

(** ** [JSON.stringify] *)

Definition hex_digit (n : N) : ascii :=
  if (n <? 10)%N then ascii_of_N (48 + n) else ascii_of_N (87 + n).

Definition dquote : string := String (ascii_of_N 34) EmptyString.

(** One byte of a string inside the quotes. *)
Definition quote_char (c : ascii) : string :=
  let n := N_of_ascii c in
  if (n =? 34)%N then "\" ++ dquote
  else if (n =? 92)%N then "\\"
  else if (n =? 8)%N then "\b"
  else if (n =? 9)%N then "\t"
  else if (n =? 10)%N then "\n"
  else if (n =? 12)%N then "\f"
  else if (n =? 13)%N then "\r"
  else if (n <? 32)%N then
    "\u00" ++ String (hex_digit (n / 16)) (String (hex_digit (n mod 16)) "")
  else String c "".

Fixpoint quote_chars (s : string) : string :=
  match s with
  | EmptyString => ""
  | String c r => quote_char c ++ quote_chars r
  end.

Definition quote (s : string) : string := dquote ++ quote_chars s ++ dquote.

(** The exact decimal in scientific form.  (JavaScript prints the shortest
    decimal that reads back as the same double; the text of a forwarded
    number is outside this model.) *)
Definition number_text (n : number) : string :=
  (if num_neg n then "-" else "")
  ++ string_of_Z (Z.of_N (num_digits n))
  ++ (if (num_exp10 n =? 0)%Z then "" else "e" ++ string_of_Z (num_exp10 n)).

Fixpoint join (sep : string) (l : list string) : string :=
  match l with
  | [] => ""
  | [x] => x
  | x :: r => x ++ sep ++ join sep r
  end.

(** [SerializeJSONProperty]: [None] stands for [undefined]. *)
Fixpoint serialize (v : value) : option string :=
  match v with
  | VUndefined => None
  | VNull => Some "null"
  | VBool true => Some "true"
  | VBool false => Some "false"
  | VNumber n => Some (number_text n)
  | VString s => Some (quote s)
  | VArray elems =>
      let fix items (l : list value) : list string :=
        match l with
        | [] => []
        | x :: r =>
            match serialize x with Some t => t | None => "null" end :: items r
        end in
      Some ("[" ++ join "," (items elems) ++ "]")
  | VObject props =>
      let fix members (l : list (string * value)) : list string :=
        match l with
        | [] => []
        | (k, x) :: r =>
            match serialize x with
            | Some t => (quote k ++ ":" ++ t) :: members r
            | None => members r
            end
        end in
      Some ("{" ++ join "," (members props) ++ "}")
  end.

Definition JSON_stringify (v : value) : option string := serialize v.

(** ** [JSON.parse] *)

Definition is_ws (c : ascii) : bool :=
  let n := N_of_ascii c in
  (n =? 32)%N || (n =? 9)%N || (n =? 10)%N || (n =? 13)%N.

Fixpoint skip_ws (s : string) : string :=
  match s with
  | String c r => if is_ws c then skip_ws r else s
  | EmptyString => s
  end.

Definition is_digit (c : ascii) : bool :=
  let n := N_of_ascii c in (48 <=? n)%N && (n <=? 57)%N.

(** The longest prefix of decimal digits, and what follows it. *)
Fixpoint span_digits (s : string) : string * string :=
  match s with
  | String c r =>
      if is_digit c then let (d, t) := span_digits r in (String c d, t)
      else (EmptyString, s)
  | EmptyString => (EmptyString, s)
  end.

Fixpoint strip_prefix (p s : string) : option string :=
  match p, s with
  | EmptyString, _ => Some s
  | String a p', String b s' => if (a =? b)%char then strip_prefix p' s' else None
  | String _ _, EmptyString => None
  end.

(** *** String literals *)

Definition hex_value (c : ascii) : option N :=
  let n := N_of_ascii c in
  if (48 <=? n)%N && (n <=? 57)%N then Some (n - 48)%N
  else if (65 <=? n)%N && (n <=? 70)%N then Some (n - 55)%N
  else if (97 <=? n)%N && (n <=? 102)%N then Some (n - 87)%N
  else None.

Definition byte (n : N) : string := String (ascii_of_N n) EmptyString.

(** JavaScript strings are sequences of UTF-16 code units; the model keeps
    them as the bytes of their UTF-8 encoding (an unpaired surrogate is
    written like any other three-byte code point). *)
Definition utf8 (cp : N) : string :=
  if (cp <? 128)%N then byte cp
  else if (cp <? 2048)%N then
    byte (192 + cp / 64) ++ byte (128 + cp mod 64)
  else if (cp <? 65536)%N then
    byte (224 + cp / 4096) ++ byte (128 + (cp / 64) mod 64)
    ++ byte (128 + cp mod 64)
  else
    byte (240 + cp / 262144) ++ byte (128 + (cp / 4096) mod 64)
    ++ byte (128 + (cp / 64) mod 64) ++ byte (128 + cp mod 64).

Definition is_high_surrogate (u : N) : bool :=
  (55296 <=? u)%N && (u <=? 56319)%N.
Definition is_low_surrogate (u : N) : bool :=
  (56320 <=? u)%N && (u <=? 57343)%N.

Inductive lex_state : Type :=
| LexChars                       (* between the quotes *)
| LexEscape                      (* after a backslash *)
| LexHex (todo : nat) (acc : N). (* inside a \u escape *)

(** A high surrogate waits in [hi] for the low one that may follow it. *)
Definition flush (hi : option N) : string :=
  match hi with Some h => utf8 h | None => EmptyString end.

Definition simple_escape (c : ascii) : option string :=
  let n := N_of_ascii c in
  if (n =? 34)%N then Some dquote
  else if (n =? 92)%N then Some "\"
  else if (n =? 47)%N then Some "/"
  else if (n =? 98)%N then Some (byte 8)
  else if (n =? 102)%N then Some (byte 12)
  else if (n =? 110)%N then Some (byte 10)
  else if (n =? 114)%N then Some (byte 13)
  else if (n =? 116)%N then Some (byte 9)
  else None.

Definition emit (t : string) (k : option (string * string))
  : option (string * string) :=
  match k with
  | Some (u, rest) => Some (t ++ u, rest)
  | None => None
  end.

(** Reads a string literal whose opening quote has been consumed; returns
    its contents and the input after the closing quote. *)
Fixpoint lex_string (st : lex_state) (hi : option N) (s : string)
  : option (string * string) :=
  match s with
  | EmptyString => None
  | String c r =>
      match st with
      | LexChars =>
          let n := N_of_ascii c in
          if (n =? 34)%N then Some (flush hi, r)
          else if (n =? 92)%N then lex_string LexEscape hi r
          else if (n <? 32)%N then None
          else emit (flush hi ++ String c EmptyString)
                    (lex_string LexChars None r)
      | LexEscape =>
          match simple_escape c with
          | Some t => emit (flush hi ++ t) (lex_string LexChars None r)
          | None =>
              if (N_of_ascii c =? 117)%N then lex_string (LexHex 4 0) hi r
              else None
          end
      | LexHex todo acc =>
          match hex_value c with
          | None => None
          | Some d =>
              let u := (16 * acc + d)%N in
              match todo with
              | S (S todo') => lex_string (LexHex (S todo') u) hi r
              | _ =>
                  match hi with
                  | Some h =>
                      if is_low_surrogate u then
                        emit (utf8 (65536 + (h - 55296) * 1024 + (u - 56320)))
                             (lex_string LexChars None r)
                      else if is_high_surrogate u then
                        emit (utf8 h) (lex_string LexChars (Some u) r)
                      else emit (utf8 h ++ utf8 u) (lex_string LexChars None r)
                  | None =>
                      if is_high_surrogate u then
                        lex_string LexChars (Some u) r
                      else emit (utf8 u) (lex_string LexChars None r)
                  end
              end
          end
      end
  end.

(** *** Numbers *)

Definition lex_exponent (s : string) : option (Z * string) :=
  match s with
  | String c r =>
      if ((c =? "e") || (c =? "E"))%char then
        let '(neg, r1) :=
          match r with
          | String sg r' =>
              if (sg =? "-")%char then (true, r')
              else if (sg =? "+")%char then (false, r')
              else (false, r)
          | EmptyString => (false, r)
          end in
        let (ds, r2) := span_digits r1 in
        match ds with
        | EmptyString => None
        | _ => let e := Z.of_N (digits_value 0 ds) in
               Some (if neg then (- e)%Z else e, r2)
        end
      else Some (0%Z, s)
  | EmptyString => Some (0%Z, s)
  end.

Definition lex_fraction (s : string) : option (string * string) :=
  match s with
  | String c r =>
      if (c =? ".")%char then
        let (ds, r1) := span_digits r in
        match ds with
        | EmptyString => None
        | _ => Some (ds, r1)
        end
      else Some (EmptyString, s)
  | EmptyString => Some (EmptyString, s)
  end.

(** An optional minus sign; an integer part, either a single zero or
    digits that do not start with a zero; an optional fraction, a point and
    at least one digit; an optional exponent, [e] or [E], an optional sign
    and at least one digit. *)
Definition lex_number (s : string) : option (number * string) :=
  let '(neg, s1) :=
    match s with
    | String c r => if (c =? "-")%char then (true, r) else (false, s)
    | EmptyString => (false, s)
    end in
  let '(int, s2) :=
    match s1 with
    | String c r => if (c =? "0")%char then ("0", r) else span_digits s1
    | EmptyString => (EmptyString, s1)
    end in
  match int with
  | EmptyString => None
  | _ =>
      match lex_fraction s2 with
      | None => None
      | Some (frac, s3) =>
          match lex_exponent s3 with
          | None => None
          | Some (e, s4) =>
              Some (mkNumber neg (digits_value 0 (int ++ frac))
                             (e - Z.of_nat (String.length frac)), s4)
          end
      end
  end.

(** *** Values *)

Definition is_char (c : ascii) (n : N) : bool := (N_of_ascii c =? n)%N.

Fixpoint parse_value (fuel : nat) (s : string) {struct fuel}
  : option (value * string) :=
  match fuel with
  | O => None
  | S f =>
      match skip_ws s with
      | EmptyString => None
      | String c r as t =>
          if is_char c 123 (* { *) then
            match skip_ws r with
            | String c' r' =>
                if is_char c' 125 then Some (VObject [], r')
                else parse_members f r []
            | EmptyString => None
            end
          else if is_char c 91 (* [ *) then
            match skip_ws r with
            | String c' r' =>
                if is_char c' 93 then Some (VArray [], r')
                else parse_elements f r []
            | EmptyString => None
            end
          else if is_char c 34 then
            match lex_string LexChars None r with
            | Some (str, r') => Some (VString str, r')
            | None => None
            end
          else if is_char c 116 (* t *) then
            match strip_prefix "true" t with
            | Some r' => Some (VBool true, r')
            | None => None
            end
          else if is_char c 102 (* f *) then
            match strip_prefix "false" t with
            | Some r' => Some (VBool false, r')
            | None => None
            end
          else if is_char c 110 (* n *) then
            match strip_prefix "null" t with
            | Some r' => Some (VNull, r')
            | None => None
            end
          else
            match lex_number t with
            | Some (n, r') => Some (VNumber n, r')
            | None => None
            end
      end
  end

with parse_elements (fuel : nat) (s : string) (acc : list value) {struct fuel}
  : option (value * string) :=
  match fuel with
  | O => None
  | S f =>
      match parse_value f s with
      | None => None
      | Some (v, r) =>
          match skip_ws r with
          | String c r' =>
              if is_char c 44 (* , *) then parse_elements f r' (acc ++ [v])%list
              else if is_char c 93 (* ] *) then
                Some (VArray (acc ++ [v])%list, r')
              else None
          | EmptyString => None
          end
      end
  end

with parse_members (fuel : nat) (s : string) (acc : list (string * value))
  {struct fuel} : option (value * string) :=
  match fuel with
  | O => None
  | S f =>
      match skip_ws s with
      | EmptyString => None
      | String q r =>
          if is_char q 34 then
            match lex_string LexChars None r with
            | None => None
            | Some (k, r1) =>
                match skip_ws r1 with
                | EmptyString => None
                | String colon r2 =>
                    if is_char colon 58 then
                      match parse_value f r2 with
                      | None => None
                      | Some (v, r3) =>
                          match skip_ws r3 with
                          | EmptyString => None
                          | String c r4 =>
                              if is_char c 44 then
                                parse_members f r4 (obj_set acc k v)
                              else if is_char c 125 then
                                Some (VObject (obj_set acc k v), r4)
                              else None
                          end
                      end
                    else None
                end
            end
          else None
      end
  end.

(** [JSON.parse] of a string: [None] stands for the [SyntaxError].  The fuel
    is enough for every text: of two consecutive recursive calls at least
    one has consumed a character. *)
Definition JSON_parse (text : string) : option value :=
  match parse_value (2 * String.length text + 2) text with
  | Some (v, rest) =>
      match skip_ws rest with
      | EmptyString => Some v
      | String _ _ => None
      end
  | None => None
  end.

(** ** Effects

    One invocation runs against an upstream whose behaviour is a function of
    the number of the call and of the request it receives.  Everything the
    invocation does to the outside is appended to a trace. *)

Record request : Type := mkRequest {
  url         : string;
  method      : string;
  req_headers : list (string * string);
  req_body    : option string
}.

(** What [fetch] resolves to: the status and the outcome of [response.json()]
    (which rejects when the response body is not JSON). *)
Record response : Type := mkResponse {
  status : Z;
  json   : exn + value
}.

(** [response.ok]. *)
Definition ok (r : response) : bool :=
  (200 <=? status r)%Z && (status r <=? 299)%Z.

Inductive fetch_outcome : Type :=
| Rejects  (e : exn)
| Responds (r : response).

Definition Upstream : Type := nat -> request -> fetch_outcome.

Inductive logarg : Type :=
| LogText  (s : string)
| LogValue (v : value)
| LogError (e : exn).

Inductive effect : Type :=
| Fetch   (req : request)
| Timer (ms : Z)
| Console (level : string) (args : list logarg).

Record World : Type := mkWorld {
  calls : nat;          (* outbound calls made so far *)
  trace : list effect   (* oldest first *)
}.

Definition start : World := mkWorld 0 [].

(** How a computation ends: normally with a value, or abruptly with a thrown
    one. *)
Inductive completion (A : Type) : Type :=
| Normal (a : A)
| Throw  (e : exn).
Arguments Normal {A} a.
Arguments Throw {A} e.

Definition M (A : Type) : Type := World -> completion A * World.

Definition ret {A} (a : A) : M A := fun w => (Normal a, w).

Definition bind {A B} (m : M A) (k : A -> M B) : M B :=
  fun w => match m w with
           | (Normal a, w') => k a w'
           | (Throw e, w') => (Throw e, w')
           end.

Definition throw {A} (e : exn) : M A := fun w => (Throw e, w).

(** [try { m } catch (e) { h e }] *)
Definition try_catch {A} (m : M A) (h : exn -> M A) : M A :=
  fun w => match m w with
           | (Normal a, w') => (Normal a, w')
           | (Throw e, w') => h e w'
           end.

Declare Scope js_scope.
Delimit Scope js_scope with js.
Notation "x <- m ;; k" := (bind m (fun x => k))
  (at level 61, m at next level, right associativity) : js_scope.
Notation "m ;; k" := (bind m (fun _ => k))
  (at level 61, right associativity) : js_scope.
Local Open Scope js_scope.

Definition log (e : effect) : M unit :=
  fun w => (Normal tt, mkWorld (calls w) (trace w ++ [e])).

(** [await fetch(url, options)] *)
Definition fetch (up : Upstream) (req : request) : M response :=
  fun w =>
    let w' := mkWorld (S (calls w)) (trace w ++ [Fetch req]) in
    match up (calls w) req with
    | Rejects e => (Throw e, w')
    | Responds r => (Normal r, w')
    end.

(** [await response.json()] *)
Definition response_json (r : response) : M value :=
  match json r with
  | inl e => throw e
  | inr v => ret v
  end.

(** [await new Promise(resolve => setTimeout(resolve, ms))] *)
Definition sleep (ms : Z) : M unit := log (Timer ms).

Definition console_error (args : list logarg) : M unit :=
  log (Console "error" args).
Definition console_warn (args : list logarg) : M unit :=
  log (Console "warn" args).

Definition JSON_parse_m (text : string) : M value :=
  match JSON_parse text with
  | Some v => ret v
  | None => throw SyntaxError
  end.

Definition member_m (v : value) (p : string) : M value :=
  match member v p with
  | inl e => throw e
  | inr x => ret x
  end.

(** ** The invocation request and the normalized result *)

(** [event.body]: a string, or absent. *)
Inductive raw_body : Type :=
| BodyUndefined
| BodyNull
| Body (text : string).

Record Event : Type := mkEvent {
  httpMethod : string;
  body       : raw_body
}.

(** [ToString] of the argument of [JSON.parse]. *)
Definition ToString (b : raw_body) : string :=
  match b with
  | BodyUndefined => "undefined"
  | BodyNull => "null"
  | Body text => text
  end.

(** [b || dflt] *)
Definition or_default (b : raw_body) (dflt : string) : string :=
  match b with
  | Body text => if text =? "" then dflt else text
  | BodyUndefined | BodyNull => dflt
  end.

Record result : Type := mkResult {
  statusCode : Z;
  headers    : list (string * string);
  res_body   : option string
}.

(** [process.env.GEMINI_API_KEY] as a value. *)
Definition env_value (v : option string) : value :=
  match v with
  | Some s => VString s
  | None => VUndefined
  end.

(** [${v}] for an environment variable. *)
Definition env_text (v : option string) : string :=
  match v with
  | Some s => s
  | None => "undefined"
  end.

(** [{ error: msg }] *)
Definition error_object (msg : string) : value :=
  VObject [("error", VString msg)].

(** ** netlify/get-news.js *)

Module GetNews.

Definition GEMINI_MODEL : string := "gemini-2.5-flash-preview-09-2025".

Section Handler.

Variable API_KEY : option string.
Variable upstream : Upstream.

Definition apiUrl : string :=
  "https://generativelanguage.googleapis.com/v1beta/models/" ++ GEMINI_MODEL
  ++ ":generateContent?key=" ++ env_text API_KEY.

Definition outbound (payload : value) : request :=
  mkRequest apiUrl "POST" [("Content-Type", "application/json")]
            (JSON_stringify payload).

(** The body of the [try] block of one attempt; [Some r] is [return r]. *)
Definition attempt_body (payload : value) (attempt : nat) : M (option result) :=
  response <- fetch upstream (outbound payload) ;;
  if negb (ok response) then
    errorBody <- response_json response ;;
    console_error
      [LogText ("Gemini API Error (Attempt " ++ string_of_nat (attempt + 1)
                ++ "):");
       LogValue errorBody] ;;
    throw (new_Error ("Gemini API returned status "
                      ++ string_of_Z (status response)))
  else
    geminiResponse <- response_json response ;;
    ret (Some (mkResult 200 [("Content-Type", "application/json")]
                        (JSON_stringify geminiResponse))).

Definition exhausted (error : exn) : result :=
  mkResult 502 []
    (JSON_stringify
       (VObject
          [("error",
            VString "Failed to communicate with the Gemini API after multiple retries.");
           ("details", VString (exn_message error))])).

(** The [catch] block of one attempt; [None] lets the loop go on. *)
Definition attempt_catch (maxRetries attempt : nat) (error : exn)
  : M (option result) :=
  console_warn
    [LogText ("Attempt " ++ string_of_nat (attempt + 1) ++ " failed: "
              ++ exn_message error)] ;;
  if (attempt <? maxRetries - 1)%nat then
    let waitTime := (2 ^ Z.of_nat attempt * 1000)%Z in
    sleep waitTime ;;
    ret None
  else
    ret (Some (exhausted error)).

(** One pass through the [try] statement in the loop. *)
Definition iteration (payload : value) (maxRetries attempt : nat)
  : M (option result) :=
  try_catch (attempt_body payload attempt) (attempt_catch maxRetries attempt).

(** [for (let attempt = 0; attempt < maxRetries; attempt++)], by the number
    of iterations that remain: [attempt = maxRetries - remaining].  When the
    loop runs out the function ends without a [return]: [None]. *)
Fixpoint retry_loop (payload : value) (maxRetries remaining : nat)
  : M (option result) :=
  match remaining with
  | O => ret None
  | S remaining' =>
      let attempt := (maxRetries - remaining)%nat in
      r <- iteration payload maxRetries attempt ;;
      match r with
      | Some res => ret (Some res)
      | None => retry_loop payload maxRetries remaining'
      end
  end.

Definition maxRetries : nat := 3.

Definition handler (event : Event) : M (option result) :=
  if negb (httpMethod event =? "POST") then
    ret (Some (mkResult 405 []
                 (JSON_stringify (error_object "Method Not Allowed"))))
  else if negb (truthy (env_value API_KEY)) then
    console_error
      [LogText "GEMINI_API_KEY environment variable is not set."] ;;
    ret (Some (mkResult 500 []
                 (JSON_stringify
                    (error_object
                       "Server configuration error: API key missing."))))
  else
    parsed <- try_catch
                (payload <- JSON_parse_m (ToString (body event)) ;;
                 ret (inr payload))
                (fun e =>
                   ret (inl (mkResult 400 []
                               (JSON_stringify
                                  (error_object
                                     "Invalid JSON body provided."))))) ;;
    match parsed with
    | inl res => ret (Some res)
    | inr payload =>
        missing <- (if negb (truthy payload) then ret true
                    else contents <- member_m payload "contents" ;;
                         ret (negb (truthy contents))) ;;
        if missing : bool then
          ret (Some (mkResult 400 []
                       (JSON_stringify
                          (error_object
                             "Missing required 'contents' in payload."))))
        else
          retry_loop payload maxRetries maxRetries
    end.

End Handler.

End GetNews.

(** ** The typed-intent handler *)

Module Part000.

Definition GEMINI_MODEL : string := "gemini-2.5-flash-preview-09-2025".

Definition fetch_userQuery : string :=
  "What are the top 5 current finance and business news stories?".
Definition fetch_systemPrompt : string :=
  "Act as a concise news aggregator. Provide the title and full body of the top 5 finance stories. Format the output as clean markdown, separating each story clearly using titles and paragraphs.".
Definition summarize_systemPrompt : string :=
  "You are a highly efficient editor. Condense the provided financial news content into a single, cohesive, jargon-free paragraph. The summary must be 60 words or less. Do not use a title, introduction, or citation placeholders.".

(** [[{ "google_search": {} }]] *)
Definition search_tools : list value := [VObject [("google_search", VObject [])]].

(** The object literal [payload], and [payload.tools = tools] when [tools]
    is not empty. *)
Definition provider_payload (userQuery : value) (systemPrompt : string)
  (tools : list value) : value :=
  let props :=
    [("contents", VArray [VObject [("parts", VArray [VObject [("text", userQuery)]])]]);
     ("systemInstruction",
      VObject [("parts", VArray [VObject [("text", VString systemPrompt)]])])] in
  VObject (if (0 <? List.length tools)%nat
           then obj_set props "tools" (VArray tools)
           else props).

Section Handler.

Variable API_KEY : option string.
Variable upstream : Upstream.

Definition API_URL : string :=
  "https://generativelanguage.googleapis.com/v1beta/models/" ++ GEMINI_MODEL
  ++ ":generateContent?key=" ++ env_text API_KEY.

Definition outbound (payload : value) : request :=
  mkRequest API_URL "POST" [("Content-Type", "application/json")]
            (JSON_stringify payload).

(** The [try] statement that ends the function. *)
Definition dispatch (payload : value) : M result :=
  try_catch
    (response <- fetch upstream (outbound payload) ;;
     if negb (ok response) then
       errorBody <- response_json response ;;
       console_error [LogText "Gemini API Error:"; LogValue errorBody] ;;
       ret (mkResult (status response) []
              (JSON_stringify
                 (VObject
                    [("error",
                      VString ("External API call failed: "
                               ++ string_of_Z (status response)));
                     ("details", errorBody)])))
     else
       result <- response_json response ;;
       ret (mkResult 200 [] (JSON_stringify result)))
    (fun error =>
       console_error [LogText "Internal Server Error:"; LogError error] ;;
       ret (mkResult 500 []
              (JSON_stringify
                 (error_object "Internal server error during API proxy.")))).

(** From the construction of [payload] to the end of the function, for the
    values that the branches on [apiType] gave to the three locals. *)
Definition send (userQuery : value) (systemPrompt : string)
  (tools : list value) : M result :=
  let payload := provider_payload userQuery systemPrompt tools in
  dispatch payload.

Definition handler (event : Event) : M result :=
  if negb (truthy (env_value API_KEY)) then
    ret (mkResult 500 []
           (JSON_stringify
              (error_object "API Key is not configured on the server.")))
  else
    body <- JSON_parse_m (or_default (body event) "{}") ;;
    apiType <- member_m body "type" ;;
    if strict_eq_string apiType "fetch" then
      send (VString fetch_userQuery) fetch_systemPrompt search_tools
    else if strict_eq_string apiType "summarize" then
      userQuery <- member_m body "textToSummarize" ;;
      send userQuery summarize_systemPrompt []
    else
      ret (mkResult 400 []
             (JSON_stringify (error_object "Invalid API type specified."))).

End Handler.

End Part000.

(** ** Observations on a run *)

Definition outcome {A} (m : M A) : completion A := fst (m start).
Definition effects {A} (m : M A) : list effect := trace (snd (m start)).

(** The outbound calls of a trace, in order. *)
Fixpoint requests (t : list effect) : list request :=
  match t with
  | [] => []
  | Fetch req :: r => req :: requests r
  | _ :: r => requests r
  end.

(** The trace without the console output: calls and timers. *)
Fixpoint timeline (t : list effect) : list effect :=
  match t with
  | [] => []
  | Console _ _ :: r => timeline r
  | e :: r => e :: timeline r
  end.

(** [needle] occurs in [hay]. *)
Fixpoint contains (needle hay : string) : bool :=
  match strip_prefix needle hay with
  | Some _ => true
  | None =>
      match hay with
      | EmptyString => false
      | String _ r => contains needle r
      end
  end.

(** [v[k1][k2]...] without the prototype chain: own properties of objects
    and elements of arrays. *)
Fixpoint at_path (v : value) (path : list (string + nat)) : option value :=
  match path with
  | [] => Some v
  | inl k :: rest =>
      match v with
      | VObject props =>
          match own props k with
          | Some x => at_path x rest
          | None => None
          end
      | _ => None
      end
  | inr i :: rest =>
      match v with
      | VArray elems =>
          match nth_error elems i with
          | Some x => at_path x rest
          | None => None
          end
      | _ => None
      end
  end.

(** The credential is configured: [API_KEY] is truthy. *)
Definition configured (API_KEY : option string) : bool :=
  truthy (env_value API_KEY).

(** *** What [netlify/get-news.js] checks before it dispatches *)

(** [!payload || !payload.contents] is false. *)
Definition has_contents (payload : value) : bool :=
  truthy payload
  && match member payload "contents" with
     | inr contents => truthy contents
     | inl _ => false
     end.

(** The error that the [catch] block of an attempt receives, if any. *)
Definition failure (o : fetch_outcome) : option exn :=
  match o with
  | Rejects e => Some e
  | Responds r =>
      match json r with
      | inl e => Some e
      | inr _ =>
          if ok r then None
          else Some (new_Error ("Gemini API returned status "
                                ++ string_of_Z (status r)))
      end
  end.

(** *** What the typed-intent handler checks before it dispatches *)

(** The payload that the handler builds for a parsed body whose [type] it
    recognizes. *)
Definition intent_payload (body : value) : option value :=
  match member body "type" with
  | inl _ => None
  | inr apiType =>
      if strict_eq_string apiType "fetch" then
        Some (Part000.provider_payload (VString Part000.fetch_userQuery)
                Part000.fetch_systemPrompt Part000.search_tools)
      else if strict_eq_string apiType "summarize" then
        match member body "textToSummarize" with
        | inr userQuery =>
            Some (Part000.provider_payload userQuery
                    Part000.summarize_systemPrompt [])
        | inl _ => None
        end
      else None
  end.

(** The parsed body has a [type] that is neither of the two. *)
Definition unrecognized (body : value) : bool :=
  match member body "type" with
  | inl _ => false
  | inr apiType =>
      negb (strict_eq_string apiType "fetch")
      && negb (strict_eq_string apiType "summarize")
  end.

(** The error that the [catch] block of the single call receives, if any. *)
Definition thrown (o : fetch_outcome) : option exn :=
  match o with
  | Rejects e => Some e
  | Responds r =>
      match json r with
      | inl e => Some e
      | inr _ => None
      end
  end.

(** [netlify/get-news.js] turns the request down: the body does not parse,
    or [!payload || !payload.contents]. *)
Definition get_news_rejects (event : Event) : bool :=
  match JSON_parse (ToString (body event)) with
  | None => true
  | Some payload => negb (has_contents payload)
  end.

(** The typed-intent handler turns the request down: the body parses and
    its [type] is neither [fetch] nor [summarize]. *)
Definition typed_intent_rejects (event : Event) : bool :=
  match JSON_parse (or_default (body event) "{}") with
  | None => false
  | Some parsed => unrecognized parsed
  end.

(** [event.body] is [undefined], [null] or the empty string. *)
Definition absent (raw : raw_body) : bool :=
  match raw with
  | BodyUndefined | BodyNull => true
  | Body text => text =? ""
  end.

(** The calls and timers of a run in which the attempts numbered
    [attempt .. attempt + failures - 1] fail and the next one succeeds. *)
Fixpoint recovery (req : request) (attempt failures : nat) : list effect :=
  match failures with
  | O => [Fetch req]
  | S failures' =>
      Fetch req :: Timer (2 ^ Z.of_nat attempt * 1000)
      :: recovery req (S attempt) failures'
  end.

(** The calls and timers of a run of the loop in which each of the
    [remaining] attempts fails. *)
Fixpoint exhaustion (req : request) (maxRetries remaining : nat) : list effect :=
  match remaining with
  | O => []
  | S remaining' =>
      let attempt := (maxRetries - remaining)%nat in
      (Fetch req
       :: (if (attempt <? maxRetries - 1)%nat
           then [Timer (2 ^ Z.of_nat attempt * 1000)] else []))
      ++ exhaustion req maxRetries remaining'
  end%list.

(** The arguments of the calls of [console.warn], in order. *)
Fixpoint warnings (t : list effect) : list (list logarg) :=
  match t with
  | [] => []
  | Console level args :: r =>
      if level =? "warn" then args :: warnings r else warnings r
  | _ :: r => warnings r
  end.

(** The warnings that the loop of [netlify/get-news.js] logs from the
    attempt numbered [attempt] on, with [remaining] attempts to go: one for
    each attempt that fails, until an attempt succeeds or none remains. *)
Fixpoint failed_attempt_warnings (upstream : Upstream) (req : request)
  (attempt remaining : nat) : list (list logarg) :=
  match remaining with
  | O => []
  | S remaining' =>
      match failure (upstream attempt req) with
      | Some e =>
          [LogText ("Attempt " ++ string_of_nat (attempt + 1) ++ " failed: "
                    ++ exn_message e)]
          :: failed_attempt_warnings upstream req (S attempt) remaining'
      | None => []
      end
  end.

(** The calls and timers that [netlify/get-news.js] can leave behind when it
    dispatches a request. *)
Definition schedules (req : request) : list (list effect) :=
  [[Fetch req];
   [Fetch req; Timer 1000; Fetch req];
   [Fetch req; Timer 1000; Fetch req; Timer 2000; Fetch req]].

(** The payload that the typed-intent handler sends for an invocation, if
    it sends one. *)
Definition translation (API_KEY : option string) (event : Event)
  : option value :=
  if configured API_KEY then
    match JSON_parse (or_default (body event) "{}") with
    | Some parsed => intent_payload parsed
    | None => None
    end
  else None.

(** ** Sample invocations *)

Definition sample_key : option string := Some "AIzaSy-sample-key".

(** The body [{"contents":[{"parts":[{"text":"hi"}]}]}]. *)
Definition raw_payload_text : string :=
  "{" ++ quote "contents" ++ ":[{" ++ quote "parts" ++ ":[{" ++ quote "text"
  ++ ":" ++ quote "hi" ++ "}]}]}".

Definition raw_payload_value : value :=
  VObject
    [("contents",
      VArray [VObject [("parts", VArray [VObject [("text", VString "hi")]])]])].

(** The body [{"type":"fetch"}]. *)
Definition fetch_text : string := "{" ++ quote "type" ++ ":" ++ quote "fetch" ++ "}".

(** The body [{"type":"summarize","textToSummarize":"Stocks rose."}]. *)
Definition summarize_text : string :=
  "{" ++ quote "type" ++ ":" ++ quote "summarize" ++ ","
  ++ quote "textToSummarize" ++ ":" ++ quote "Stocks rose." ++ "}".

Definition unavailable : response :=
  mkResponse 503 (inr (error_object "The model is overloaded.")).

Definition generated : value :=
  VObject [("candidates", VArray [VObject [("text", VString "News.")]])].

(** An upstream that answers 503 to every call. *)
Definition always_503 : Upstream := fun _ _ => Responds unavailable.

(** Two failures, a rejected call and then a 503, and then a 200. *)
Definition failing_twice (n : nat) : fetch_outcome :=
  match n with
  | 0%nat => Rejects (mkExn "TypeError" "fetch failed")
  | 1%nat => Responds unavailable
  | _ => Responds (mkResponse 200 (inr generated))
  end.

Definition fails_twice : Upstream := fun n _ => failing_twice n.

(** The body [{"type":"fetch","contents":"hi"}], which both handlers
    dispatch. *)
Definition both_text : string :=
  "{" ++ quote "type" ++ ":" ++ quote "fetch" ++ "," ++ quote "contents"
  ++ ":" ++ quote "hi" ++ "}".

(** An upstream that rejects every call. *)
Definition always_rejects : Upstream :=
  fun _ _ => Rejects (mkExn "TypeError" "fetch failed").

Definition fetch_payload : value :=
  Part000.provider_payload (VString Part000.fetch_userQuery)
    Part000.fetch_systemPrompt Part000.search_tools.

(** An upstream that answers 200 to every call. *)
Definition always_200 : Upstream :=
  fun _ _ => Responds (mkResponse 200 (inr generated)).

(** An upstream call that fails the way [node-fetch] reports a transport
    failure, with the requested URL in the message. *)
Definition refuses_connection : Upstream :=
  fun _ req =>
    Rejects (mkExn "FetchError"
               ("request to " ++ url req
                ++ " failed, reason: connect ECONNREFUSED")).

(** An upstream that quotes the key it was given in its error body. *)
Definition quotes_key : Upstream :=
  fun _ req =>
    Responds (mkResponse 400
                (inr (error_object ("API key not valid: " ++ url req)))).

(** An upstream whose failure message holds a quote, a backslash and a line
    feed. *)
Definition rejects_with_quotes : Upstream :=
  fun _ _ =>
    Rejects (mkExn "SyntaxError"
               ("Unexpected token " ++ dquote ++ "<" ++ dquote ++ " in \path"
                ++ String (ascii_of_N 10) "at line 2")).

(** ** Lemmas on the effect monad *)

Lemma requests_app (t u : list effect) :
  requests (t ++ u) = (requests t ++ requests u)%list.
Proof.
  induction t as [|e t IH]; simpl; [reflexivity|].
  destruct e; simpl; rewrite IH; reflexivity.
Qed.

Lemma timeline_app (t u : list effect) :
  timeline (t ++ u) = (timeline t ++ timeline u)%list.
Proof.
  induction t as [|e t IH]; simpl; [reflexivity|].
  destruct e; simpl; rewrite IH; reflexivity.
Qed.

Lemma truthy_member (v : value) (p : string) :
  truthy v = true -> exists x, member v p = inr x.
Proof.
  destruct v; simpl; try discriminate; eauto.
Qed.

Lemma has_contents_inv (payload : value) :
  has_contents payload = true ->
  truthy payload = true /\
  exists contents, member payload "contents" = inr contents
                   /\ truthy contents = true.
Proof.
  unfold has_contents. intros H. apply andb_true_iff in H as [H1 H2].
  split; [assumption|].
  destruct (member payload "contents") as [e|c]; [discriminate|eauto].
Qed.

(** ** Tactics *)

(** Closes the goals on the trace of a run once the run is a value. *)
Ltac trace_eq :=
  simpl; rewrite ?requests_app, ?timeline_app; simpl;
  rewrite ?requests_app, ?timeline_app; simpl;
  rewrite <- ?app_assoc, ?app_nil_r; simpl; try reflexivity.

Ltac run_catch :=
  unfold GetNews.attempt_catch, bind, console_warn, sleep, log, ret; simpl;
  destruct (_ <? _)%nat; simpl;
  eexists; (split; [reflexivity|]); repeat split; trace_eq.

Module GetNewsFacts.
Import GetNews.

Section Loop.

Variable API_KEY : option string.
Variable upstream : Upstream.
Variable payload : value.
Variable maxRetries : nat.

Local Abbreviation req := (outbound API_KEY payload).
Local Abbreviation iter :=
  (GetNews.iteration API_KEY upstream payload maxRetries).

(** A successful attempt returns 200 with the upstream body. *)
Lemma iteration_success (attempt : nat) (w : World) (r : response) (v : value) :
  upstream (calls w) req = Responds r ->
  ok r = true ->
  json r = inr v ->
  iter attempt w =
    (Normal (Some (mkResult 200 [("Content-Type", "application/json")]
                            (JSON_stringify v))),
     mkWorld (S (calls w)) (trace w ++ [Fetch req])).
Proof.
  intros Hup Hok Hjson.
  unfold iteration, try_catch, attempt_body, bind, fetch.
  rewrite Hup. rewrite Hok. simpl.
  unfold response_json. rewrite Hjson. reflexivity.
Qed.

(** A failed attempt reaches the [catch] block with its error: before the
    last attempt the handler arms the timer and goes on, at the last one it
    returns 502. *)
Lemma iteration_failure (attempt : nat) (w : World) (e : exn) :
  failure (upstream (calls w) req) = Some e ->
  exists w',
    iter attempt w =
      (Normal (if (attempt <? maxRetries - 1)%nat then None
               else Some (exhausted e)), w')
    /\ calls w' = S (calls w)
    /\ requests (trace w') = (requests (trace w) ++ [req])%list
    /\ timeline (trace w') =
         (timeline (trace w) ++ Fetch req ::
            (if (attempt <? maxRetries - 1)%nat
             then [Timer (2 ^ Z.of_nat attempt * 1000)] else []))%list.
Proof.
  intros Hfail.
  unfold iteration, try_catch, attempt_body, bind, fetch.
  unfold failure in Hfail.
  destruct (upstream (calls w) req) as [e0|r].
  - injection Hfail as ->. run_catch.
  - unfold response_json, throw, ret.
    destruct (json r) as [e0|v].
    + injection Hfail as ->. destruct (ok r); simpl; run_catch.
    + destruct (ok r); [discriminate|]. injection Hfail as <-. simpl.
      unfold bind, console_error, log. run_catch.
Qed.

Lemma failure_None (o : fetch_outcome) :
  failure o = None ->
  exists r v, o = Responds r /\ ok r = true /\ json r = inr v.
Proof.
  destruct o as [e|r]; simpl; [discriminate|].
  destruct (json r) as [e|v] eqn:Hj; [discriminate|].
  destruct (ok r) eqn:Hok; [|discriminate].
  intros _. exists r, v. auto.
Qed.

Lemma retry_loop_S (remaining : nat) (w : World) :
  retry_loop API_KEY upstream payload maxRetries (S remaining) w =
  match iter (maxRetries - S remaining) w with
  | (Normal (Some res), w') => (Normal (Some res), w')
  | (Normal None, w') =>
      retry_loop API_KEY upstream payload maxRetries remaining w'
  | (Throw e, w') => (Throw e, w')
  end.
Proof.
  simpl. unfold bind. fold (iter (maxRetries - S remaining)).
  destruct (iter (maxRetries - S remaining) w) as [[[res|]|e] w'];
    reflexivity.
Qed.

(** The loop always ends in a [return]: with 200 or with 502, and after at
    least one outbound call. *)
Lemma retry_loop_returns (remaining : nat) :
  forall w : World,
    (1 <= remaining)%nat -> (remaining <= maxRetries)%nat ->
    exists res w' more,
      retry_loop API_KEY upstream payload maxRetries remaining w =
        (Normal (Some res), w')
      /\ (statusCode res = 200%Z \/ statusCode res = 502%Z)
      /\ requests (trace w') = (requests (trace w) ++ req :: more)%list.
Proof.
  induction remaining as [|remaining IH]; intros w Hpos Hle; [lia|].
  rewrite retry_loop_S.
  destruct (failure (upstream (calls w) req)) as [e|] eqn:Hf.
  - destruct (iteration_failure (maxRetries - S remaining) w e Hf)
      as (w1 & Hrun & Hcalls & Hreq & _).
    rewrite Hrun.
    destruct (maxRetries - S remaining <? maxRetries - 1)%nat eqn:Hlast.
    + apply Nat.ltb_lt in Hlast.
      destruct (IH w1) as (res & w2 & more & Hloop & Hst & Hreq2); [lia|lia|].
      exists res, w2, (req :: more). rewrite Hloop. repeat split; auto.
      rewrite Hreq2, Hreq, <- app_assoc. reflexivity.
    + exists (exhausted e), w1, []. repeat split; auto.
  - destruct (failure_None _ Hf) as (r & v & Hup & Hok & Hjson).
    rewrite (iteration_success _ w r v Hup Hok Hjson).
    eexists _, _, []. repeat split; trace_eq. left; reflexivity.
Qed.

(** When every attempt fails the loop makes [remaining] calls, one after
    the other, and returns 502 with the message of the last failure. *)
Lemma retry_loop_exhausts (remaining : nat) :
  forall w : World,
    (1 <= remaining)%nat -> (remaining <= maxRetries)%nat ->
    (forall i, (i < remaining)%nat ->
               failure (upstream (calls w + i) req) <> None) ->
    exists e w',
      retry_loop API_KEY upstream payload maxRetries remaining w =
        (Normal (Some (exhausted e)), w')
      /\ failure (upstream (calls w + remaining - 1) req) = Some e
      /\ requests (trace w') =
           (requests (trace w) ++ repeat req remaining)%list.
Proof.
  induction remaining as [|remaining IH]; intros w Hpos Hle Hall; [lia|].
  rewrite retry_loop_S.
  destruct (failure (upstream (calls w) req)) as [e|] eqn:Hf.
  2:{ exfalso. apply (Hall 0%nat); [lia|]. rewrite Nat.add_0_r. exact Hf. }
  destruct (iteration_failure (maxRetries - S remaining) w e Hf)
    as (w1 & Hrun & Hcalls & Hreq & _).
  rewrite Hrun.
  destruct (maxRetries - S remaining <? maxRetries - 1)%nat eqn:Hlast.
  - apply Nat.ltb_lt in Hlast.
    destruct (IH w1) as (e' & w2 & Hloop & Hlastf & Hreq2); [lia|lia| |].
    + intros i Hi. rewrite Hcalls.
      replace (S (calls w) + i)%nat with (calls w + S i)%nat by lia.
      apply Hall. lia.
    + exists e', w2. rewrite Hloop. repeat split.
      * rewrite <- Hlastf. f_equal. f_equal. lia.
      * rewrite Hreq2, Hreq, <- app_assoc. reflexivity.
  - apply Nat.ltb_ge in Hlast.
    assert (remaining = 0)%nat as -> by lia.
    exists e, w1. repeat split.
    + rewrite <- Hf. f_equal. f_equal. lia.
    + exact Hreq.
Qed.

Lemma retry_loop_recovers (failures : nat) (r : response) (v : value) :
  forall (remaining : nat) (w : World),
    (failures < remaining)%nat -> (remaining <= maxRetries)%nat ->
    (forall i, (i < failures)%nat ->
               failure (upstream (calls w + i) req) <> None) ->
    upstream (calls w + failures) req = Responds r ->
    ok r = true ->
    json r = inr v ->
    exists w',
      retry_loop API_KEY upstream payload maxRetries remaining w =
        (Normal (Some (mkResult 200 [("Content-Type", "application/json")]
                                (JSON_stringify v))), w')
      /\ timeline (trace w') =
           (timeline (trace w)
            ++ recovery req (maxRetries - remaining) failures)%list.
Proof.
  induction failures as [|failures IH];
    intros remaining w Hlt Hle Hfails Hup Hok Hjson;
    (destruct remaining as [|remaining]; [lia|]); rewrite retry_loop_S.
  - rewrite Nat.add_0_r in Hup.
    rewrite (iteration_success _ w r v Hup Hok Hjson).
    eexists. split; [reflexivity|]. trace_eq.
  - destruct (failure (upstream (calls w) req)) as [e|] eqn:Hf.
    2:{ exfalso. apply (Hfails 0%nat); [lia|]. rewrite Nat.add_0_r.
        exact Hf. }
    destruct (iteration_failure (maxRetries - S remaining) w e Hf)
      as (w1 & Hrun & Hcalls & _ & Htl).
    rewrite Hrun.
    assert ((maxRetries - S remaining <? maxRetries - 1)%nat = true)
      as Hnot_last
        by (apply Nat.ltb_lt; lia).
    rewrite Hnot_last in *.
    destruct (IH remaining w1) as (w2 & Hloop & Htl2); try lia; auto.
    + intros i Hi. rewrite Hcalls.
      replace (S (calls w) + i)%nat with (calls w + S i)%nat by lia.
      apply Hfails. lia.
    + rewrite Hcalls.
      replace (S (calls w) + failures)%nat
        with (calls w + S failures)%nat by lia.
      exact Hup.
    + exists w2. split; [exact Hloop|].
      rewrite Htl2, Htl, <- app_assoc. simpl.
      replace (maxRetries - remaining)%nat
        with (S (maxRetries - S remaining)) by lia.
      reflexivity.
Qed.

End Loop.

End GetNewsFacts.

(** ** The paths of [GetNews.handler] *)

Module GetNewsPaths.
Import GetNews GetNewsFacts.

Section Paths.

Variable API_KEY : option string.
Variable upstream : Upstream.
Variable event : Event.

Lemma not_post :
  httpMethod event <> "POST" ->
  handler API_KEY upstream event start =
    (Normal (Some (mkResult 405 []
                     (JSON_stringify (error_object "Method Not Allowed")))),
     start).
Proof.
  intros H. unfold handler.
  destruct (httpMethod event =? "POST") eqn:E; [|reflexivity].
  apply String.eqb_eq in E. contradiction.
Qed.

Lemma key_missing :
  httpMethod event = "POST" ->
  configured API_KEY = false ->
  handler API_KEY upstream event start =
    (Normal (Some (mkResult 500 []
                     (JSON_stringify
                        (error_object
                           "Server configuration error: API key missing.")))),
     mkWorld 0
       [Console "error"
          [LogText "GEMINI_API_KEY environment variable is not set."]]).
Proof.
  intros Hm Hk. unfold handler, configured in *.
  rewrite Hm, String.eqb_refl, Hk. reflexivity.
Qed.

Lemma unparseable :
  httpMethod event = "POST" ->
  configured API_KEY = true ->
  JSON_parse (ToString (body event)) = None ->
  handler API_KEY upstream event start =
    (Normal (Some (mkResult 400 []
                     (JSON_stringify
                        (error_object "Invalid JSON body provided.")))),
     start).
Proof.
  intros Hm Hk Hp. unfold handler, configured in *.
  rewrite Hm, String.eqb_refl, Hk. simpl.
  unfold bind, try_catch, JSON_parse_m. rewrite Hp. reflexivity.
Qed.

Lemma contents_missing (payload : value) :
  httpMethod event = "POST" ->
  configured API_KEY = true ->
  JSON_parse (ToString (body event)) = Some payload ->
  has_contents payload = false ->
  handler API_KEY upstream event start =
    (Normal (Some (mkResult 400 []
                     (JSON_stringify
                        (error_object
                           "Missing required 'contents' in payload.")))),
     start).
Proof.
  intros Hm Hk Hp Hc. unfold handler, configured in *.
  rewrite Hm, String.eqb_refl, Hk. simpl.
  unfold bind, try_catch, JSON_parse_m. rewrite Hp. simpl.
  unfold has_contents in Hc.
  destruct (truthy payload) eqn:Ht; simpl.
  - destruct (truthy_member payload "contents" Ht) as [c Hc'].
    unfold bind, member_m. rewrite Hc' in *. simpl in *. rewrite Hc.
    reflexivity.
  - reflexivity.
Qed.

Lemma dispatches (payload : value) :
  httpMethod event = "POST" ->
  configured API_KEY = true ->
  JSON_parse (ToString (body event)) = Some payload ->
  has_contents payload = true ->
  handler API_KEY upstream event start =
    retry_loop API_KEY upstream payload maxRetries maxRetries start.
Proof.
  intros Hm Hk Hp Hc. unfold handler, configured in *.
  rewrite Hm, String.eqb_refl, Hk.
  destruct (has_contents_inv payload Hc) as (Ht & c & Hmem & Htc).
  cbv beta iota delta [negb].
  unfold bind at 1. unfold try_catch, bind at 1, JSON_parse_m.
  rewrite Hp. cbv beta iota delta [ret].
  unfold bind at 1. rewrite Ht. cbv beta iota delta [negb].
  unfold bind at 1, member_m. rewrite Hmem.
  cbv beta iota delta [ret]. rewrite Htc. reflexivity.
Qed.

End Paths.

End GetNewsPaths.

(** ** The paths of [Part000.handler] *)

Module Part000Paths.
Import Part000.

Section Paths.

Variable API_KEY : option string.
Variable upstream : Upstream.

Lemma dispatch_success (payload : value) (w : World) (r : response)
  (v : value) :
  upstream (calls w) (outbound API_KEY payload) = Responds r ->
  ok r = true ->
  json r = inr v ->
  dispatch API_KEY upstream payload w =
    (Normal (mkResult 200 [] (JSON_stringify v)),
     mkWorld (S (calls w)) (trace w ++ [Fetch (outbound API_KEY payload)])).
Proof.
  intros Hup Hok Hj. unfold dispatch, try_catch, bind, fetch.
  rewrite Hup, Hok. simpl. unfold response_json. rewrite Hj. reflexivity.
Qed.

(** A non-2xx response with a JSON body is forwarded with its status. *)
Lemma dispatch_forwards (payload : value) (w : World) (r : response)
  (errorBody : value) :
  upstream (calls w) (outbound API_KEY payload) = Responds r ->
  ok r = false ->
  json r = inr errorBody ->
  dispatch API_KEY upstream payload w =
    (Normal (mkResult (status r) []
               (JSON_stringify
                  (VObject
                     [("error",
                       VString ("External API call failed: "
                                ++ string_of_Z (status r)));
                      ("details", errorBody)]))),
     mkWorld (S (calls w))
       (trace w ++ [Fetch (outbound API_KEY payload);
                    Console "error"
                      [LogText "Gemini API Error:"; LogValue errorBody]])).
Proof.
  intros Hup Hok Hj. unfold dispatch, try_catch, bind, fetch.
  rewrite Hup, Hok. simpl. unfold response_json. rewrite Hj. simpl.
  rewrite <- app_assoc. reflexivity.
Qed.

(** A rejected call, or a response whose body is not JSON, gives 500. *)
Lemma dispatch_catches (payload : value) (w : World) (e : exn) :
  thrown (upstream (calls w) (outbound API_KEY payload)) = Some e ->
  dispatch API_KEY upstream payload w =
    (Normal (mkResult 500 []
               (JSON_stringify
                  (error_object "Internal server error during API proxy."))),
     mkWorld (S (calls w))
       (trace w ++ [Fetch (outbound API_KEY payload);
                    Console "error"
                      [LogText "Internal Server Error:"; LogError e]])).
Proof.
  unfold thrown, dispatch, try_catch, bind, fetch. intros H.
  destruct (upstream (calls w) (outbound API_KEY payload)) as [e0|r].
  - injection H as ->. simpl. rewrite <- app_assoc. reflexivity.
  - unfold response_json. destruct (json r) as [e0|v]; [|discriminate].
    injection H as ->. destruct (ok r); simpl; rewrite <- app_assoc;
      reflexivity.
Qed.

(** The call is made exactly once, and the function returns. *)
Lemma dispatch_returns (payload : value) (w : World) :
  exists res w',
    dispatch API_KEY upstream payload w = (Normal res, w')
    /\ requests (trace w') =
         (requests (trace w) ++ [outbound API_KEY payload])%list.
Proof.
  destruct (thrown (upstream (calls w) (outbound API_KEY payload)))
    as [e|] eqn:Ht.
  - rewrite (dispatch_catches _ _ _ Ht). eexists _, _.
    split; [reflexivity|]. trace_eq.
  - unfold thrown in Ht.
    destruct (upstream (calls w) (outbound API_KEY payload)) as [e|r] eqn:Hup;
      [discriminate|].
    destruct (json r) as [e|v] eqn:Hj; [discriminate|].
    destruct (ok r) eqn:Hok.
    + rewrite (dispatch_success _ _ _ _ Hup Hok Hj). eexists _, _.
      split; [reflexivity|]. trace_eq.
    + rewrite (dispatch_forwards _ _ _ _ Hup Hok Hj). eexists _, _.
      split; [reflexivity|]. trace_eq.
Qed.

Variable event : Event.

Lemma key_not_configured :
  configured API_KEY = false ->
  handler API_KEY upstream event start =
    (Normal (mkResult 500 []
               (JSON_stringify
                  (error_object "API Key is not configured on the server."))),
     start).
Proof.
  intros Hk. unfold handler, configured in *. rewrite Hk. reflexivity.
Qed.

(** [JSON.parse] is outside every [try]. *)
Lemma parse_throws :
  configured API_KEY = true ->
  JSON_parse (or_default (body event) "{}") = None ->
  handler API_KEY upstream event start = (Throw SyntaxError, start).
Proof.
  intros Hk Hp. unfold handler, configured in *. rewrite Hk. simpl.
  unfold bind, JSON_parse_m. rewrite Hp. reflexivity.
Qed.

(** So is the read of [body.type], which throws when the body is the JSON
    text [null]. *)
Lemma type_throws (parsed : value) (e : exn) :
  configured API_KEY = true ->
  JSON_parse (or_default (body event) "{}") = Some parsed ->
  member parsed "type" = inl e ->
  handler API_KEY upstream event start = (Throw e, start).
Proof.
  intros Hk Hp Hm. unfold handler, configured in *. rewrite Hk. simpl.
  unfold bind, JSON_parse_m. rewrite Hp. simpl. unfold member_m.
  rewrite Hm. reflexivity.
Qed.

Lemma rejects (parsed : value) :
  configured API_KEY = true ->
  JSON_parse (or_default (body event) "{}") = Some parsed ->
  unrecognized parsed = true ->
  handler API_KEY upstream event start =
    (Normal (mkResult 400 []
               (JSON_stringify (error_object "Invalid API type specified."))),
     start).
Proof.
  intros Hk Hp Hu. unfold handler, configured in *. rewrite Hk. simpl.
  unfold bind at 1, JSON_parse_m. rewrite Hp. simpl.
  unfold unrecognized in Hu. unfold bind at 1, member_m.
  destruct (member parsed "type") as [e|t]; [discriminate|]. simpl.
  apply andb_true_iff in Hu as [H1 H2].
  apply negb_true_iff in H1, H2. rewrite H1, H2. reflexivity.
Qed.

Lemma translates (parsed payload : value) :
  configured API_KEY = true ->
  JSON_parse (or_default (body event) "{}") = Some parsed ->
  intent_payload parsed = Some payload ->
  handler API_KEY upstream event start =
    dispatch API_KEY upstream payload start.
Proof.
  intros Hk Hp Hi. unfold handler, configured in *. rewrite Hk.
  cbv beta iota delta [negb].
  unfold bind at 1, JSON_parse_m. rewrite Hp. cbv beta iota delta [ret].
  unfold intent_payload in Hi. unfold bind at 1, member_m.
  destruct (member parsed "type") as [e|t]; [discriminate|].
  cbv beta iota delta [ret].
  destruct (strict_eq_string t "fetch").
  - injection Hi as <-. reflexivity.
  - destruct (strict_eq_string t "summarize"); [|discriminate].
    unfold bind at 1.
    destruct (member parsed "textToSummarize") as [e|u]; [discriminate|].
    injection Hi as <-. reflexivity.
Qed.

(** Reading [type] throws, or the [type] is unrecognized, or the body is
    translated. *)
Lemma parsed_cases (parsed : value) :
  (exists e, member parsed "type" = inl e)
  \/ unrecognized parsed = true
  \/ exists payload, intent_payload parsed = Some payload.
Proof.
  unfold unrecognized, intent_payload.
  destruct parsed; simpl; eauto.
  destruct (own props "type") as [t|]; [|auto].
  destruct (strict_eq_string t "fetch"); simpl; [eauto|].
  destruct (strict_eq_string t "summarize"); simpl; eauto.
Qed.

End Paths.

End Part000Paths.

(** ** The claims *)

Lemma requests_timeline (t : list effect) : requests (timeline t) = requests t.
Proof.
  induction t as [|e t IH]; simpl; [reflexivity|].
  destruct e; simpl; rewrite ?IH; reflexivity.
Qed.

(** C1 (amended).  In [netlify/get-news.js], for every invocation that
    reaches the dispatch loop (POST, credential configured, a payload with a
    truthy [contents]) and in which each of the three outbound attempts fails
    (rejected call, unreadable body or non-2xx status, whatever the status),
    the handler returns 502 with the body [{error, details}] where [details]
    is the message of the last failure, after exactly three outbound calls.
    In the typed-intent handler a translated request is sent exactly once: a
    non-2xx response with a JSON body is answered with the upstream status
    and [{error, details: <upstream body>}], and a rejected call or an
    unreadable body with 500. *)
Theorem upstream_failure_handling :
  (forall API_KEY upstream event payload,
      configured API_KEY = true ->
      httpMethod event = "POST" ->
      JSON_parse (ToString (body event)) = Some payload ->
      has_contents payload = true ->
      (forall n, (n < GetNews.maxRetries)%nat ->
                 failure (upstream n (GetNews.outbound API_KEY payload))
                 <> None) ->
      exists last,
        failure (upstream 2%nat (GetNews.outbound API_KEY payload)) = Some last
        /\ outcome (GetNews.handler API_KEY upstream event) =
             Normal (Some (mkResult 502 []
               (JSON_stringify
                  (VObject
                     [("error",
                       VString "Failed to communicate with the Gemini API after multiple retries.");
                      ("details", VString (exn_message last))]))))
        /\ requests (effects (GetNews.handler API_KEY upstream event)) =
             repeat (GetNews.outbound API_KEY payload) 3)
  /\
  (forall API_KEY upstream event parsed payload r errorBody,
      configured API_KEY = true ->
      JSON_parse (or_default (body event) "{}") = Some parsed ->
      intent_payload parsed = Some payload ->
      upstream 0%nat (Part000.outbound API_KEY payload) = Responds r ->
      ok r = false ->
      json r = inr errorBody ->
      outcome (Part000.handler API_KEY upstream event) =
        Normal (mkResult (status r) []
          (JSON_stringify
             (VObject
                [("error",
                  VString ("External API call failed: "
                           ++ string_of_Z (status r)));
                 ("details", errorBody)])))
      /\ requests (effects (Part000.handler API_KEY upstream event)) =
           [Part000.outbound API_KEY payload])
  /\
  (forall API_KEY upstream event parsed payload e,
      configured API_KEY = true ->
      JSON_parse (or_default (body event) "{}") = Some parsed ->
      intent_payload parsed = Some payload ->
      thrown (upstream 0%nat (Part000.outbound API_KEY payload)) = Some e ->
      outcome (Part000.handler API_KEY upstream event) =
        Normal (mkResult 500 []
          (JSON_stringify
             (error_object "Internal server error during API proxy.")))
      /\ requests (effects (Part000.handler API_KEY upstream event)) =
           [Part000.outbound API_KEY payload]).
Proof.
  split; [|split].
  - intros API_KEY upstream event payload Hk Hm Hp Hc Hall.
    unfold outcome, effects.
    rewrite (GetNewsPaths.dispatches _ _ _ _ Hm Hk Hp Hc).
    destruct (GetNewsFacts.retry_loop_exhausts API_KEY upstream payload
                GetNews.maxRetries GetNews.maxRetries start)
      as (e & w' & Hrun & Hlast & Hreq); [unfold GetNews.maxRetries; lia
                                         |lia|exact Hall|].
    exists e. rewrite Hrun. simpl in *. auto.
  - intros API_KEY upstream event parsed payload r errorBody Hk Hp Hi
      Hup Hok Hj.
    unfold outcome, effects.
    rewrite (Part000Paths.translates _ _ _ _ _ Hk Hp Hi).
    rewrite (Part000Paths.dispatch_forwards _ _ _ start r errorBody Hup Hok Hj).
    split; reflexivity.
  - intros API_KEY upstream event parsed payload e Hk Hp Hi Ht.
    unfold outcome, effects.
    rewrite (Part000Paths.translates _ _ _ _ _ Hk Hp Hi).
    rewrite (Part000Paths.dispatch_catches _ _ _ start e Ht).
    split; reflexivity.
Qed.

Lemma upstream_failure_handling_witness :
  (exists last,
      failure (always_503 2%nat (GetNews.outbound sample_key raw_payload_value))
      = Some last
      /\ outcome (GetNews.handler sample_key always_503
                    (mkEvent "POST" (Body raw_payload_text))) =
           Normal (Some (mkResult 502 []
             (JSON_stringify
                (VObject
                   [("error",
                     VString "Failed to communicate with the Gemini API after multiple retries.");
                    ("details", VString (exn_message last))]))))
      /\ requests (effects (GetNews.handler sample_key always_503
                              (mkEvent "POST" (Body raw_payload_text)))) =
           repeat (GetNews.outbound sample_key raw_payload_value) 3)
  /\ (outcome (Part000.handler sample_key always_503
                 (mkEvent "POST" (Body fetch_text))) =
        Normal (mkResult 503 []
          (JSON_stringify
             (VObject
                [("error", VString ("External API call failed: "
                                    ++ string_of_Z 503));
                 ("details", error_object "The model is overloaded.")])))
      /\ requests (effects (Part000.handler sample_key always_503
                              (mkEvent "POST" (Body fetch_text)))) =
           [Part000.outbound sample_key fetch_payload])
  /\ (outcome (Part000.handler sample_key always_rejects
                 (mkEvent "POST" (Body fetch_text))) =
        Normal (mkResult 500 []
          (JSON_stringify
             (error_object "Internal server error during API proxy.")))
      /\ requests (effects (Part000.handler sample_key always_rejects
                              (mkEvent "POST" (Body fetch_text)))) =
           [Part000.outbound sample_key fetch_payload]).
Proof.
  split; [|split].
  - apply (proj1 upstream_failure_handling sample_key always_503
             (mkEvent "POST" (Body raw_payload_text)) raw_payload_value).
    + reflexivity.
    + reflexivity.
    + vm_compute. reflexivity.
    + reflexivity.
    + intros n _. simpl. discriminate.
  - apply (proj1 (proj2 upstream_failure_handling) sample_key always_503
             (mkEvent "POST" (Body fetch_text))
             (VObject [("type", VString "fetch")]) fetch_payload
             unavailable (error_object "The model is overloaded.")).
    + reflexivity.
    + vm_compute. reflexivity.
    + reflexivity.
    + reflexivity.
    + reflexivity.
    + reflexivity.
  - apply (proj2 (proj2 upstream_failure_handling) sample_key always_rejects
             (mkEvent "POST" (Body fetch_text))
             (VObject [("type", VString "fetch")]) fetch_payload
             (mkExn "TypeError" "fetch failed")).
    + reflexivity.
    + vm_compute. reflexivity.
    + reflexivity.
    + reflexivity.
Defined.

(** C1 as stated fails on the typed-intent handler: against an upstream that
    always answers 503 it makes a single call and returns 503. *)
Lemma single_call_forwards_503 :
  exists res,
    outcome (Part000.handler sample_key always_503
               (mkEvent "POST" (Body fetch_text))) = Normal res
    /\ statusCode res = 503%Z
    /\ statusCode res <> 502%Z
    /\ List.length
         (requests (effects (Part000.handler sample_key always_503
                               (mkEvent "POST" (Body fetch_text))))) = 1%nat.
Proof.
  eexists. split; [vm_compute; reflexivity|].
  split; [reflexivity|]. split; [discriminate|]. vm_compute. reflexivity.
Qed.

(** C2.  In [netlify/get-news.js], when the first two outbound attempts fail
    and the third succeeds, the handler returns 200 with the success body;
    exactly three outbound calls are made, one after the other, and the
    timers armed between them are [2^attempt] seconds: 1000 ms after attempt
    0 and 2000 ms after attempt 1. *)
Theorem recovers_on_third_attempt
  (API_KEY : option string) (upstream : Upstream) (event : Event)
  (payload : value) (r : response) (v : value) :
  configured API_KEY = true ->
  httpMethod event = "POST" ->
  JSON_parse (ToString (body event)) = Some payload ->
  has_contents payload = true ->
  failure (upstream 0%nat (GetNews.outbound API_KEY payload)) <> None ->
  failure (upstream 1%nat (GetNews.outbound API_KEY payload)) <> None ->
  upstream 2%nat (GetNews.outbound API_KEY payload) = Responds r ->
  ok r = true ->
  json r = inr v ->
  outcome (GetNews.handler API_KEY upstream event) =
    Normal (Some (mkResult 200 [("Content-Type", "application/json")]
                           (JSON_stringify v)))
  /\ requests (effects (GetNews.handler API_KEY upstream event)) =
       [GetNews.outbound API_KEY payload; GetNews.outbound API_KEY payload;
        GetNews.outbound API_KEY payload]
  /\ timeline (effects (GetNews.handler API_KEY upstream event)) =
       [Fetch (GetNews.outbound API_KEY payload); Timer 1000;
        Fetch (GetNews.outbound API_KEY payload); Timer 2000;
        Fetch (GetNews.outbound API_KEY payload)].
Proof.
  intros Hk Hm Hp Hc H0 H1 H2 Hok Hj.
  unfold outcome, effects.
  rewrite (GetNewsPaths.dispatches _ _ _ _ Hm Hk Hp Hc).
  destruct (GetNewsFacts.retry_loop_recovers API_KEY upstream payload
              GetNews.maxRetries 2 r v GetNews.maxRetries start)
    as (w' & Hrun & Htl); auto.
  - intros i Hi. simpl.
    destruct i as [|[|i]]; [exact H0|exact H1|lia].
  - rewrite Hrun. simpl fst. simpl snd.
    assert (timeline (trace w') =
            [Fetch (GetNews.outbound API_KEY payload); Timer 1000;
             Fetch (GetNews.outbound API_KEY payload); Timer 2000;
             Fetch (GetNews.outbound API_KEY payload)]) as Htl'
        by (rewrite Htl; reflexivity).
    repeat split; [|exact Htl'].
    rewrite <- requests_timeline, Htl'. reflexivity.
Qed.

Lemma recovers_on_third_attempt_witness :
  outcome (GetNews.handler sample_key fails_twice
             (mkEvent "POST" (Body raw_payload_text))) =
    Normal (Some (mkResult 200 [("Content-Type", "application/json")]
                           (JSON_stringify generated)))
  /\ requests (effects (GetNews.handler sample_key fails_twice
                          (mkEvent "POST" (Body raw_payload_text)))) =
       [GetNews.outbound sample_key raw_payload_value;
        GetNews.outbound sample_key raw_payload_value;
        GetNews.outbound sample_key raw_payload_value]
  /\ timeline (effects (GetNews.handler sample_key fails_twice
                          (mkEvent "POST" (Body raw_payload_text)))) =
       [Fetch (GetNews.outbound sample_key raw_payload_value); Timer 1000;
        Fetch (GetNews.outbound sample_key raw_payload_value); Timer 2000;
        Fetch (GetNews.outbound sample_key raw_payload_value)].
Proof.
  apply (recovers_on_third_attempt sample_key fails_twice
           (mkEvent "POST" (Body raw_payload_text)) raw_payload_value
           (mkResponse 200 (inr generated)) generated).
  - reflexivity.
  - reflexivity.
  - vm_compute. reflexivity.
  - reflexivity.
  - simpl. discriminate.
  - simpl. discriminate.
  - reflexivity.
  - reflexivity.
  - reflexivity.
Defined.

(** C3 (amended).  The entry point of [netlify/get-news.js] never raises:
    every invocation ends in a result whose status is 405, 500, 400, 200 or
    502; and for every POST request, with the credential configured, whose
    body is not parseable as JSON, it returns 400 and performs no outbound
    call. *)
Theorem get_news_never_raises
  (API_KEY : option string) (upstream : Upstream) (event : Event) :
  exists res,
    outcome (GetNews.handler API_KEY upstream event) = Normal (Some res)
    /\ In (statusCode res) [405; 500; 400; 200; 502]%Z
    /\ (httpMethod event = "POST" ->
        configured API_KEY = true ->
        JSON_parse (ToString (body event)) = None ->
        statusCode res = 400%Z
        /\ requests (effects (GetNews.handler API_KEY upstream event)) = []).
Proof.
  unfold outcome, effects.
  destruct (String.eqb_spec (httpMethod event) "POST") as [Hm|Hm].
  2:{ rewrite (GetNewsPaths.not_post _ _ _ Hm). eexists.
      split; [reflexivity|]. split; [simpl; auto|]. contradiction. }
  destruct (configured API_KEY) eqn:Hk.
  2:{ rewrite (GetNewsPaths.key_missing _ _ _ Hm Hk). eexists.
      split; [reflexivity|]. split; [simpl; auto|]. discriminate. }
  destruct (JSON_parse (ToString (body event))) as [payload|] eqn:Hp.
  2:{ rewrite (GetNewsPaths.unparseable _ _ _ Hm Hk Hp). eexists.
      split; [reflexivity|]. split; [simpl; auto|]. auto. }
  destruct (has_contents payload) eqn:Hc.
  2:{ rewrite (GetNewsPaths.contents_missing _ _ _ _ Hm Hk Hp Hc). eexists.
      split; [reflexivity|]. split; [simpl; auto|]. discriminate. }
  rewrite (GetNewsPaths.dispatches _ _ _ _ Hm Hk Hp Hc).
  destruct (GetNewsFacts.retry_loop_returns API_KEY upstream payload
              GetNews.maxRetries GetNews.maxRetries start)
    as (res & w' & more & Hrun & Hst & _); [unfold GetNews.maxRetries; lia
                                           |lia|].
  rewrite Hrun. exists res. split; [reflexivity|].
  split; [|discriminate].
  simpl. destruct Hst as [-> | ->]; auto 6.
Qed.

Lemma get_news_never_raises_witness :
  exists res,
    outcome (GetNews.handler sample_key always_503
               (mkEvent "POST" (Body "{not json"))) = Normal (Some res)
    /\ statusCode res = 400%Z
    /\ requests (effects (GetNews.handler sample_key always_503
                            (mkEvent "POST" (Body "{not json")))) = [].
Proof.
  destruct (get_news_never_raises sample_key always_503
              (mkEvent "POST" (Body "{not json")))
    as (res & Hrun & _ & H400).
  exists res. split; [exact Hrun|].
  apply H400.
  - reflexivity.
  - reflexivity.
  - vm_compute. reflexivity.
Defined.

(** C3 as stated fails: a request that is not a POST gets 405, not 400,
    when its body is not JSON; and so does a POST when the credential is
    missing, which gets 500. *)
Lemma bad_json_is_not_always_400 :
  JSON_parse "{not json" = None
  /\ outcome (GetNews.handler sample_key always_503
                (mkEvent "GET" (Body "{not json"))) =
       Normal (Some (mkResult 405 []
                 (JSON_stringify (error_object "Method Not Allowed"))))
  /\ outcome (GetNews.handler None always_503
                (mkEvent "POST" (Body "{not json"))) =
       Normal (Some (mkResult 500 []
                 (JSON_stringify
                    (error_object
                       "Server configuration error: API key missing.")))).
Proof.
  repeat split; vm_compute; reflexivity.
Qed.

(** In the typed-intent handler [JSON.parse] and the read of [body.type]
    stand before the [try]: a body that is not JSON, and the body [null],
    make the invocation raise. *)
Lemma typed_intent_handler_raises :
  outcome (Part000.handler sample_key always_503
             (mkEvent "POST" (Body "{not json"))) = Throw SyntaxError
  /\ outcome (Part000.handler sample_key always_503
                (mkEvent "POST" (Body "null"))) =
       Throw (TypeError_null "type").
Proof.
  split; vm_compute; reflexivity.
Qed.

(** C4 (amended).  With the credential configured, the handlers answer 400
    before any outbound call exactly in these cases.  [netlify/get-news.js],
    on a POST: the body is not JSON, or the parsed payload is falsy, or its
    [contents] is falsy (absent, [null], [false], zero or the empty string;
    an empty array or object is truthy and is dispatched).  The typed-intent
    handler: the body parses and its [type] is neither [fetch] nor
    [summarize] ([textToSummarize] is not examined). *)
Theorem validation_failures :
  (forall API_KEY upstream event,
      configured API_KEY = true ->
      httpMethod event = "POST" ->
      (exists res,
          outcome (GetNews.handler API_KEY upstream event) = Normal (Some res)
          /\ statusCode res = 400%Z
          /\ requests (effects (GetNews.handler API_KEY upstream event)) = [])
      <-> get_news_rejects event = true)
  /\
  (forall API_KEY upstream event,
      configured API_KEY = true ->
      (exists res,
          outcome (Part000.handler API_KEY upstream event) = Normal res
          /\ statusCode res = 400%Z
          /\ requests (effects (Part000.handler API_KEY upstream event)) = [])
      <-> typed_intent_rejects event = true)
  /\
  (forall v,
      truthy v = false
      <-> v = VUndefined \/ v = VNull \/ v = VBool false
          \/ (exists n, v = VNumber n /\ num_is_zero n = true)
          \/ v = VString "").
Proof.
  split; [|split].
  3:{ intros v. split.
      - destruct v as [| |b|n|s|elems|props]; simpl; intros H; auto;
          try discriminate.
        + subst b. auto.
        + apply negb_false_iff in H. do 3 right. left. eauto.
        + apply negb_false_iff, String.eqb_eq in H. subst s. auto 6.
      - intros [-> | [-> | [-> | [(n & -> & Hz) | ->]]]]; simpl; auto.
        rewrite Hz. reflexivity. }
  - intros API_KEY upstream event Hk Hm.
    unfold get_news_rejects, outcome, effects.
    destruct (JSON_parse (ToString (body event))) as [payload|] eqn:Hp.
    + destruct (has_contents payload) eqn:Hc; simpl.
      * rewrite (GetNewsPaths.dispatches _ _ _ _ Hm Hk Hp Hc).
        destruct (GetNewsFacts.retry_loop_returns API_KEY upstream payload
                    GetNews.maxRetries GetNews.maxRetries start)
          as (res & w' & more & Hrun & Hst & Hreq);
          [unfold GetNews.maxRetries; lia|lia|].
        rewrite Hrun. simpl. split; [|discriminate].
        intros (res' & Hres & H400 & Hnone). exfalso.
        rewrite Hreq in Hnone. simpl in Hnone. discriminate.
      * rewrite (GetNewsPaths.contents_missing _ _ _ _ Hm Hk Hp Hc).
        split; [reflexivity|]. intros _. eexists. simpl. eauto.
    + rewrite (GetNewsPaths.unparseable _ _ _ Hm Hk Hp).
      split; [reflexivity|]. intros _. eexists. simpl. eauto.
  - intros API_KEY upstream event Hk.
    unfold typed_intent_rejects, outcome, effects.
    destruct (JSON_parse (or_default (body event) "{}")) as [parsed|] eqn:Hp.
    + destruct (Part000Paths.parsed_cases parsed)
        as [[e He] | [Hu | [payload Hi]]].
      * rewrite (Part000Paths.type_throws _ _ _ _ _ Hk Hp He).
        unfold unrecognized. rewrite He. simpl.
        split; [|discriminate]. intros (res & Hres & _). discriminate.
      * rewrite (Part000Paths.rejects _ _ _ _ Hk Hp Hu).
        split; [intros _; exact Hu|]. intros _. eexists. simpl. eauto.
      * rewrite (Part000Paths.translates _ _ _ _ _ Hk Hp Hi).
        destruct (Part000Paths.dispatch_returns API_KEY upstream payload start)
          as (res & w' & Hrun & Hreq).
        rewrite Hrun. simpl.
        assert (unrecognized parsed = false) as ->.
        { unfold unrecognized, intent_payload in *.
          destruct (member parsed "type") as [e|t]; [reflexivity|].
          destruct (strict_eq_string t "fetch"); [reflexivity|].
          destruct (strict_eq_string t "summarize"); [reflexivity|].
          discriminate. }
        split; [|discriminate].
        intros (res' & _ & _ & Hnone). rewrite Hreq in Hnone.
        simpl in Hnone. discriminate.
    + rewrite (Part000Paths.parse_throws _ _ _ Hk Hp). simpl.
      split; [|discriminate]. intros (res & Hres & _). discriminate.
Qed.

Lemma validation_failures_witness :
  (exists res,
      outcome (GetNews.handler sample_key always_503
                 (mkEvent "POST" (Body ("{" ++ quote "contents" ++ ":0}"))))
      = Normal (Some res)
      /\ statusCode res = 400%Z
      /\ requests (effects (GetNews.handler sample_key always_503
                              (mkEvent "POST"
                                 (Body ("{" ++ quote "contents" ++ ":0}")))))
         = [])
  /\ (exists res,
         outcome (Part000.handler sample_key always_503
                    (mkEvent "POST"
                       (Body ("{" ++ quote "type" ++ ":" ++ quote "translate"
                              ++ "}")))) = Normal res
         /\ statusCode res = 400%Z
         /\ requests (effects (Part000.handler sample_key always_503
                                 (mkEvent "POST"
                                    (Body ("{" ++ quote "type" ++ ":"
                                           ++ quote "translate" ++ "}")))))
            = []).
Proof.
  split.
  - apply (proj1 validation_failures sample_key always_503
             (mkEvent "POST" (Body ("{" ++ quote "contents" ++ ":0}")))).
    + reflexivity.
    + reflexivity.
    + vm_compute. reflexivity.
  - apply (proj1 (proj2 validation_failures) sample_key always_503
             (mkEvent "POST"
                (Body ("{" ++ quote "type" ++ ":" ++ quote "translate"
                       ++ "}")))).
    + reflexivity.
    + vm_compute. reflexivity.
Defined.

(** C4 as stated fails: a raw payload whose [contents] is the empty array,
    and a [summarize] request without [textToSummarize], pass the checks and
    are sent upstream. *)
Lemma empty_inputs_are_dispatched :
  JSON_parse ("{" ++ quote "contents" ++ ":[]}")
  = Some (VObject [("contents", VArray [])])
  /\ List.length
       (requests (effects (GetNews.handler sample_key always_503
                             (mkEvent "POST"
                                (Body ("{" ++ quote "contents" ++ ":[]}"))))))
     = 3%nat
  /\ JSON_parse ("{" ++ quote "type" ++ ":" ++ quote "summarize" ++ "}")
     = Some (VObject [("type", VString "summarize")])
  /\ requests (effects (Part000.handler sample_key always_503
                          (mkEvent "POST"
                             (Body ("{" ++ quote "type" ++ ":"
                                    ++ quote "summarize" ++ "}")))))
     = [Part000.outbound sample_key
          (Part000.provider_payload VUndefined
             Part000.summarize_systemPrompt [])].
Proof.
  repeat split; vm_compute; reflexivity.
Qed.

(** C5 (amended).  In [netlify/get-news.js], for every request whose method
    is not POST the result is 405 and nothing else happens: no outbound
    call, no other effect.  The typed-intent handler does not read the
    method: its run is the same for every method. *)
Theorem method_check :
  (forall API_KEY upstream event,
      httpMethod event <> "POST" ->
      outcome (GetNews.handler API_KEY upstream event) =
        Normal (Some (mkResult 405 []
                  (JSON_stringify (error_object "Method Not Allowed"))))
      /\ effects (GetNews.handler API_KEY upstream event) = [])
  /\
  (forall API_KEY upstream method1 method2 raw,
      Part000.handler API_KEY upstream (mkEvent method1 raw) =
      Part000.handler API_KEY upstream (mkEvent method2 raw)).
Proof.
  split.
  - intros API_KEY upstream event Hm. unfold outcome, effects.
    rewrite (GetNewsPaths.not_post _ _ _ Hm). split; reflexivity.
  - reflexivity.
Qed.

Lemma method_check_witness :
  outcome (GetNews.handler sample_key fails_twice
             (mkEvent "GET" (Body raw_payload_text))) =
    Normal (Some (mkResult 405 []
              (JSON_stringify (error_object "Method Not Allowed"))))
  /\ effects (GetNews.handler sample_key fails_twice
                (mkEvent "GET" (Body raw_payload_text))) = [].
Proof.
  apply (proj1 method_check sample_key fails_twice
           (mkEvent "GET" (Body raw_payload_text))).
  simpl. discriminate.
Defined.

(** C5 as stated fails on the typed-intent handler: a GET is translated,
    sent upstream and answered with 200. *)
Lemma get_is_served_by_typed_intent_handler :
  outcome (Part000.handler sample_key always_200
             (mkEvent "GET" (Body fetch_text))) =
    Normal (mkResult 200 [] (JSON_stringify generated))
  /\ requests (effects (Part000.handler sample_key always_200
                          (mkEvent "GET" (Body fetch_text)))) =
       [Part000.outbound sample_key fetch_payload].
Proof.
  split; vm_compute; reflexivity.
Qed.

(** ** The credential and the result *)

Section Blind.

Variables key1 key2 : option string.
Variable outcomes : nat -> fetch_outcome.
Variable payload : value.

(** An upstream whose behaviour does not depend on what it is sent. *)
Local Abbreviation scripted :=
  (fun (n : nat) (_ : request) => outcomes n).

Lemma iteration_blind (maxRetries attempt : nat) (w1 w2 : World) :
  calls w1 = calls w2 ->
  fst (GetNews.iteration key1 scripted payload maxRetries attempt w1) =
  fst (GetNews.iteration key2 scripted payload maxRetries attempt w2)
  /\ calls (snd (GetNews.iteration key1 scripted payload maxRetries
                   attempt w1)) =
     calls (snd (GetNews.iteration key2 scripted payload maxRetries
                   attempt w2)).
Proof.
  intros Hcalls.
  destruct (failure (outcomes (calls w1))) as [e|] eqn:Hf.
  - destruct (GetNewsFacts.iteration_failure key1 scripted payload maxRetries
                attempt w1 e Hf) as (w1' & -> & Hc1 & _).
    rewrite Hcalls in Hf.
    destruct (GetNewsFacts.iteration_failure key2 scripted payload maxRetries
                attempt w2 e Hf) as (w2' & -> & Hc2 & _).
    simpl. split; [reflexivity|congruence].
  - destruct (GetNewsFacts.failure_None _ Hf) as (r & v & Hup & Hok & Hj).
    rewrite (GetNewsFacts.iteration_success key1 scripted payload maxRetries
               attempt w1 r v Hup Hok Hj).
    rewrite Hcalls in Hup.
    rewrite (GetNewsFacts.iteration_success key2 scripted payload maxRetries
               attempt w2 r v Hup Hok Hj).
    simpl. split; congruence.
Qed.

Lemma retry_loop_blind (maxRetries remaining : nat) :
  forall w1 w2 : World,
    calls w1 = calls w2 ->
    fst (GetNews.retry_loop key1 scripted payload maxRetries remaining w1) =
    fst (GetNews.retry_loop key2 scripted payload maxRetries remaining w2).
Proof.
  induction remaining as [|remaining IH]; intros w1 w2 Hcalls;
    [reflexivity|].
  rewrite !GetNewsFacts.retry_loop_S.
  destruct (iteration_blind maxRetries (maxRetries - S remaining) w1 w2 Hcalls)
    as [Hfst Hsnd].
  destruct (GetNews.iteration key1 scripted payload maxRetries
              (maxRetries - S remaining) w1) as [c1 w1'].
  destruct (GetNews.iteration key2 scripted payload maxRetries
              (maxRetries - S remaining) w2) as [c2 w2'].
  simpl in Hfst, Hsnd. subst c2.
  destruct c1 as [[res|]|e]; simpl; auto.
Qed.

Lemma dispatch_blind (w : World) :
  fst (Part000.dispatch key1 scripted payload w) =
  fst (Part000.dispatch key2 scripted payload w).
Proof.
  destruct (thrown (outcomes (calls w))) as [e|] eqn:Ht.
  - rewrite (Part000Paths.dispatch_catches key1 scripted payload w e Ht).
    rewrite (Part000Paths.dispatch_catches key2 scripted payload w e Ht).
    reflexivity.
  - unfold thrown in Ht.
    destruct (outcomes (calls w)) as [e|r] eqn:Hup; [discriminate|].
    destruct (json r) as [e|v] eqn:Hj; [discriminate|].
    destruct (ok r) eqn:Hok.
    + rewrite (Part000Paths.dispatch_success key1 scripted payload w r v
                 Hup Hok Hj).
      rewrite (Part000Paths.dispatch_success key2 scripted payload w r v
                 Hup Hok Hj).
      reflexivity.
    + rewrite (Part000Paths.dispatch_forwards key1 scripted payload w r v
                 Hup Hok Hj).
      rewrite (Part000Paths.dispatch_forwards key2 scripted payload w r v
                 Hup Hok Hj).
      reflexivity.
Qed.

End Blind.

(** C6 (amended).  No handler builds a response body from the credential or
    from the URL that carries it: every body is a fixed message or the
    serialization of what the upstream call returned or threw (the upstream
    JSON body, the upstream status, the message of the failure).  So for
    given upstream outcomes the result of an invocation is the same for
    every configured credential. *)
Theorem result_independent_of_credential
  (key1 key2 : option string) (outcomes : nat -> fetch_outcome)
  (event : Event) :
  configured key1 = true ->
  configured key2 = true ->
  outcome (GetNews.handler key1 (fun n _ => outcomes n) event) =
  outcome (GetNews.handler key2 (fun n _ => outcomes n) event)
  /\ outcome (Part000.handler key1 (fun n _ => outcomes n) event) =
     outcome (Part000.handler key2 (fun n _ => outcomes n) event).
Proof.
  intros H1 H2. unfold outcome. split.
  - destruct (String.eqb_spec (httpMethod event) "POST") as [Hm|Hm].
    2:{ rewrite !(GetNewsPaths.not_post _ _ _ Hm). reflexivity. }
    destruct (JSON_parse (ToString (body event))) as [payload|] eqn:Hp.
    2:{ rewrite (GetNewsPaths.unparseable _ _ _ Hm H1 Hp).
        rewrite (GetNewsPaths.unparseable _ _ _ Hm H2 Hp). reflexivity. }
    destruct (has_contents payload) eqn:Hc.
    2:{ rewrite (GetNewsPaths.contents_missing _ _ _ _ Hm H1 Hp Hc).
        rewrite (GetNewsPaths.contents_missing _ _ _ _ Hm H2 Hp Hc).
        reflexivity. }
    rewrite (GetNewsPaths.dispatches _ _ _ _ Hm H1 Hp Hc).
    rewrite (GetNewsPaths.dispatches _ _ _ _ Hm H2 Hp Hc).
    apply retry_loop_blind. reflexivity.
  - destruct (JSON_parse (or_default (body event) "{}")) as [parsed|] eqn:Hp.
    2:{ rewrite (Part000Paths.parse_throws _ _ _ H1 Hp).
        rewrite (Part000Paths.parse_throws _ _ _ H2 Hp). reflexivity. }
    destruct (Part000Paths.parsed_cases parsed)
      as [[e He] | [Hu | [payload Hi]]].
    + rewrite (Part000Paths.type_throws _ _ _ _ _ H1 Hp He).
      rewrite (Part000Paths.type_throws _ _ _ _ _ H2 Hp He). reflexivity.
    + rewrite (Part000Paths.rejects _ _ _ _ H1 Hp Hu).
      rewrite (Part000Paths.rejects _ _ _ _ H2 Hp Hu). reflexivity.
    + rewrite (Part000Paths.translates _ _ _ _ _ H1 Hp Hi).
      rewrite (Part000Paths.translates _ _ _ _ _ H2 Hp Hi).
      apply dispatch_blind.
Qed.

Lemma result_independent_of_credential_witness :
  outcome (GetNews.handler sample_key (fun n _ => failing_twice n)
             (mkEvent "POST" (Body both_text))) =
  outcome (GetNews.handler (Some "another-key") (fun n _ => failing_twice n)
             (mkEvent "POST" (Body both_text)))
  /\ outcome (Part000.handler sample_key (fun n _ => failing_twice n)
                (mkEvent "POST" (Body both_text))) =
     outcome (Part000.handler (Some "another-key")
                (fun n _ => failing_twice n)
                (mkEvent "POST" (Body both_text))).
Proof.
  apply (result_independent_of_credential sample_key (Some "another-key")
           failing_twice (mkEvent "POST" (Body both_text))).
  - reflexivity.
  - reflexivity.
Defined.

(** C6 as stated fails: what the upstream call throws or returns goes into
    the body as it is, so a failure message or an upstream error body that
    carries the URL puts the credential into the response. *)
Lemma upstream_text_can_carry_credential :
  (exists text,
      outcome (GetNews.handler (Some "AIzaSy-sample-key") refuses_connection
                 (mkEvent "POST" (Body raw_payload_text))) =
        Normal (Some (mkResult 502 [] (Some text)))
      /\ contains "AIzaSy-sample-key" text = true)
  /\ (exists text,
         outcome (Part000.handler (Some "AIzaSy-sample-key") quotes_key
                    (mkEvent "POST" (Body fetch_text))) =
           Normal (mkResult 400 [] (Some text))
         /\ contains "AIzaSy-sample-key" text = true).
Proof.
  split; eexists; (split; [vm_compute; reflexivity|vm_compute; reflexivity]).
Qed.

(** C7 (amended).  When the credential is missing (unset or empty), the
    result is 500 with a body [{error}] and no outbound call occurs: in
    [netlify/get-news.js] for every POST (the method is checked first), in
    the typed-intent handler for every invocation. *)
Theorem missing_credential :
  (forall API_KEY upstream event,
      configured API_KEY = false ->
      httpMethod event = "POST" ->
      outcome (GetNews.handler API_KEY upstream event) =
        Normal (Some (mkResult 500 []
                  (JSON_stringify
                     (error_object
                        "Server configuration error: API key missing."))))
      /\ requests (effects (GetNews.handler API_KEY upstream event)) = [])
  /\
  (forall API_KEY upstream event,
      configured API_KEY = false ->
      outcome (Part000.handler API_KEY upstream event) =
        Normal (mkResult 500 []
                  (JSON_stringify
                     (error_object
                        "API Key is not configured on the server.")))
      /\ requests (effects (Part000.handler API_KEY upstream event)) = []).
Proof.
  split.
  - intros API_KEY upstream event Hk Hm. unfold outcome, effects.
    rewrite (GetNewsPaths.key_missing _ _ _ Hm Hk). split; reflexivity.
  - intros API_KEY upstream event Hk. unfold outcome, effects.
    rewrite (Part000Paths.key_not_configured _ _ _ Hk). split; reflexivity.
Qed.

Lemma missing_credential_witness :
  (outcome (GetNews.handler None always_200
              (mkEvent "POST" (Body raw_payload_text))) =
     Normal (Some (mkResult 500 []
               (JSON_stringify
                  (error_object
                     "Server configuration error: API key missing."))))
   /\ requests (effects (GetNews.handler None always_200
                           (mkEvent "POST" (Body raw_payload_text)))) = [])
  /\ (outcome (Part000.handler (Some "") always_200
                 (mkEvent "POST" (Body fetch_text))) =
        Normal (mkResult 500 []
                  (JSON_stringify
                     (error_object
                        "API Key is not configured on the server.")))
      /\ requests (effects (Part000.handler (Some "") always_200
                              (mkEvent "POST" (Body fetch_text)))) = []).
Proof.
  split.
  - apply (proj1 missing_credential None always_200
             (mkEvent "POST" (Body raw_payload_text))).
    + reflexivity.
    + reflexivity.
  - apply (proj2 missing_credential (Some "") always_200
             (mkEvent "POST" (Body fetch_text))).
    reflexivity.
Defined.

(** C7 as stated fails in [netlify/get-news.js]: without the credential, a
    request that is not a POST gets 405. *)
Lemma missing_credential_on_get :
  configured None = false
  /\ outcome (GetNews.handler None always_200
                (mkEvent "GET" (Body raw_payload_text))) =
       Normal (Some (mkResult 405 []
                 (JSON_stringify (error_object "Method Not Allowed")))).
Proof.
  split; reflexivity.
Qed.

Lemma get_news_turns_down (API_KEY : option string) (upstream : Upstream)
  (event : Event) :
  configured API_KEY = true ->
  httpMethod event = "POST" ->
  get_news_rejects event = true ->
  exists res,
    GetNews.handler API_KEY upstream event start = (Normal (Some res), start)
    /\ statusCode res = 400%Z.
Proof.
  intros Hk Hm. unfold get_news_rejects.
  destruct (JSON_parse (ToString (body event))) as [payload|] eqn:Hp.
  - intros Hc. apply negb_true_iff in Hc.
    rewrite (GetNewsPaths.contents_missing _ _ _ _ Hm Hk Hp Hc). eauto.
  - intros _. rewrite (GetNewsPaths.unparseable _ _ _ Hm Hk Hp). eauto.
Qed.

(** C10 (amended).  With the credential configured, a request whose body is
    absent gets 400 and no outbound call is made: in [netlify/get-news.js]
    on a POST (the text does not parse, or parses to [null]), in the
    typed-intent handler for every method (the body is read as [{}], whose
    [type] is not recognized). *)
Theorem absent_body :
  (forall API_KEY upstream event,
      configured API_KEY = true ->
      httpMethod event = "POST" ->
      absent (body event) = true ->
      exists res,
        outcome (GetNews.handler API_KEY upstream event) = Normal (Some res)
        /\ statusCode res = 400%Z
        /\ requests (effects (GetNews.handler API_KEY upstream event)) = [])
  /\
  (forall API_KEY upstream event,
      configured API_KEY = true ->
      absent (body event) = true ->
      outcome (Part000.handler API_KEY upstream event) =
        Normal (mkResult 400 []
                  (JSON_stringify (error_object "Invalid API type specified.")))
      /\ requests (effects (Part000.handler API_KEY upstream event)) = []).
Proof.
  split.
  - intros API_KEY upstream event Hk Hm Ha.
    destruct (get_news_turns_down API_KEY upstream event Hk Hm)
      as (res & Hrun & H400).
    { unfold get_news_rejects.
      destruct (body event) as [| |text]; simpl in *;
        [reflexivity|reflexivity|].
      apply String.eqb_eq in Ha. subst text. reflexivity. }
    exists res. unfold outcome, effects. rewrite Hrun. auto.
  - intros API_KEY upstream event Hk Ha. unfold outcome, effects.
    assert (or_default (body event) "{}" = "{}") as Hd.
    { destruct (body event) as [| |text]; simpl in *; try reflexivity.
      rewrite Ha. reflexivity. }
    assert (JSON_parse (or_default (body event) "{}") = Some (VObject []))
      as Hp by (rewrite Hd; reflexivity).
    rewrite (Part000Paths.rejects _ _ _ _ Hk Hp eq_refl).
    split; reflexivity.
Qed.

Lemma absent_body_witness :
  (exists res,
      outcome (GetNews.handler sample_key always_200
                 (mkEvent "POST" BodyNull)) = Normal (Some res)
      /\ statusCode res = 400%Z
      /\ requests (effects (GetNews.handler sample_key always_200
                              (mkEvent "POST" BodyNull))) = [])
  /\ (outcome (Part000.handler sample_key always_200
                 (mkEvent "POST" BodyUndefined)) =
        Normal (mkResult 400 []
                  (JSON_stringify (error_object "Invalid API type specified.")))
      /\ requests (effects (Part000.handler sample_key always_200
                              (mkEvent "POST" BodyUndefined))) = []).
Proof.
  split.
  - apply (proj1 absent_body sample_key always_200 (mkEvent "POST" BodyNull)).
    + reflexivity.
    + reflexivity.
    + reflexivity.
  - apply (proj2 absent_body sample_key always_200
             (mkEvent "POST" BodyUndefined)).
    + reflexivity.
    + reflexivity.
Defined.

(** C10 as stated fails: a POST without a body gets 500, not 400, when the
    credential is missing. *)
Lemma absent_body_without_credential :
  outcome (GetNews.handler None always_200 (mkEvent "POST" BodyUndefined)) =
    Normal (Some (mkResult 500 []
              (JSON_stringify
                 (error_object
                    "Server configuration error: API key missing."))))
  /\ outcome (Part000.handler None always_200 (mkEvent "POST" BodyUndefined)) =
       Normal (mkResult 500 []
                 (JSON_stringify
                    (error_object
                       "API Key is not configured on the server."))).
Proof.
  split; reflexivity.
Qed.

(** C8.  For every well-formed typed-intent request (credential configured,
    a body whose [type] is [fetch] or [summarize]) one payload is built and
    sent, and it has a [tools] field, [[{google_search: {}}]], if and only
    if the type is [fetch]; for [summarize] it has no [tools] field. *)
Theorem tools_only_for_fetch
  (API_KEY : option string) (upstream : Upstream) (event : Event)
  (parsed : value) (apiType : string) :
  configured API_KEY = true ->
  JSON_parse (or_default (body event) "{}") = Some parsed ->
  member parsed "type" = inr (VString apiType) ->
  apiType = "fetch" \/ apiType = "summarize" ->
  exists payload,
    requests (effects (Part000.handler API_KEY upstream event)) =
      [Part000.outbound API_KEY payload]
    /\ (at_path payload [inl "tools"] = Some (VArray [VObject [("google_search", VObject [])]])
        <-> apiType = "fetch")
    /\ (at_path payload [inl "tools"] = None <-> apiType = "summarize").
Proof.
  intros Hk Hp Ht Hty.
  assert (exists userQuery, member parsed "textToSummarize" = inr userQuery)
    as [userQuery Hu].
  { destruct parsed; simpl in *; try discriminate; eauto. }
  assert (exists payload,
             intent_payload parsed = Some payload
             /\ (at_path payload [inl "tools"]
                 = Some (VArray [VObject [("google_search", VObject [])]]) <-> apiType = "fetch")
             /\ (at_path payload [inl "tools"] = None
                 <-> apiType = "summarize")) as (payload & Hi & Htools).
  { unfold intent_payload. rewrite Ht, Hu.
    destruct Hty as [-> | ->]; simpl; eexists; (split; [reflexivity|]);
      simpl; repeat split; intros; try reflexivity; discriminate. }
  exists payload. split; [|exact Htools].
  unfold effects. rewrite (Part000Paths.translates _ _ _ _ _ Hk Hp Hi).
  destruct (Part000Paths.dispatch_returns API_KEY upstream payload start)
    as (res & w' & Hrun & Hreq).
  rewrite Hrun. exact Hreq.
Qed.

Lemma tools_only_for_fetch_witness :
  exists payload,
    requests (effects (Part000.handler sample_key always_200
                         (mkEvent "POST" (Body fetch_text)))) =
      [Part000.outbound sample_key payload]
    /\ (at_path payload [inl "tools"] = Some (VArray [VObject [("google_search", VObject [])]])
        <-> "fetch" = "fetch")
    /\ (at_path payload [inl "tools"] = None <-> "fetch" = "summarize").
Proof.
  apply (tools_only_for_fetch sample_key always_200
           (mkEvent "POST" (Body fetch_text))
           (VObject [("type", VString "fetch")]) "fetch").
  - reflexivity.
  - vm_compute. reflexivity.
  - reflexivity.
  - left. reflexivity.
Defined.

(** C9.  For every well-formed [summarize] request with a non-empty
    [textToSummarize], the payload that is built and sent has the supplied
    text, unchanged, as its user content, and its system instruction states
    the limit of 60 words or less. *)
Theorem summarize_payload
  (API_KEY : option string) (upstream : Upstream) (event : Event)
  (parsed : value) (text : string) :
  configured API_KEY = true ->
  JSON_parse (or_default (body event) "{}") = Some parsed ->
  member parsed "type" = inr (VString "summarize") ->
  member parsed "textToSummarize" = inr (VString text) ->
  text <> "" ->
  exists payload instruction,
    requests (effects (Part000.handler API_KEY upstream event)) =
      [Part000.outbound API_KEY payload]
    /\ at_path payload [inl "contents"; inr 0%nat; inl "parts"; inr 0%nat;
                        inl "text"] = Some (VString text)
    /\ at_path payload [inl "systemInstruction"; inl "parts"; inr 0%nat;
                        inl "text"] = Some (VString instruction)
    /\ contains "60 words or less" instruction = true.
Proof.
  intros Hk Hp Ht Hu _.
  assert (intent_payload parsed =
          Some (Part000.provider_payload (VString text)
                  Part000.summarize_systemPrompt [])) as Hi.
  { unfold intent_payload. rewrite Ht, Hu. reflexivity. }
  exists (Part000.provider_payload (VString text)
            Part000.summarize_systemPrompt []),
         Part000.summarize_systemPrompt.
  split; [|repeat split; vm_compute; reflexivity].
  unfold effects. rewrite (Part000Paths.translates _ _ _ _ _ Hk Hp Hi).
  destruct (Part000Paths.dispatch_returns API_KEY upstream
              (Part000.provider_payload (VString text)
                 Part000.summarize_systemPrompt []) start)
    as (res & w' & Hrun & Hreq).
  rewrite Hrun. exact Hreq.
Qed.

Lemma summarize_payload_witness :
  exists payload instruction,
    requests (effects (Part000.handler sample_key always_200
                         (mkEvent "POST" (Body summarize_text)))) =
      [Part000.outbound sample_key payload]
    /\ at_path payload [inl "contents"; inr 0%nat; inl "parts"; inr 0%nat;
                        inl "text"] = Some (VString "Stocks rose.")
    /\ at_path payload [inl "systemInstruction"; inl "parts"; inr 0%nat;
                        inl "text"] = Some (VString instruction)
    /\ contains "60 words or less" instruction = true.
Proof.
  apply (summarize_payload sample_key always_200
           (mkEvent "POST" (Body summarize_text))
           (VObject [("type", VString "summarize");
                     ("textToSummarize", VString "Stocks rose.")])
           "Stocks rose.").
  - reflexivity.
  - vm_compute. reflexivity.
  - reflexivity.
  - reflexivity.
  - discriminate.
Defined.

(** ** Further properties of the retry loop *)

Lemma warnings_app (t u : list effect) :
  warnings (t ++ u) = (warnings t ++ warnings u)%list.
Proof.
  induction t as [|e t IH]; simpl; [reflexivity|].
  destruct e as [req|ms|level args]; simpl; try exact IH.
  destruct (level =? "warn"); simpl; rewrite IH; reflexivity.
Qed.

Lemma requests_recovery (req : request) (failures : nat) :
  forall attempt,
    requests (recovery req attempt failures) = repeat req (S failures).
Proof.
  induction failures as [|failures IH]; intros attempt; simpl;
    [reflexivity|].
  rewrite IH. reflexivity.
Qed.

Ltac log_eq :=
  simpl; rewrite ?timeline_app, ?warnings_app; simpl;
  rewrite ?timeline_app, ?warnings_app; simpl;
  rewrite <- ?app_assoc, ?app_nil_r; simpl; try reflexivity.

Ltac run_catch_log :=
  unfold GetNews.attempt_catch, bind, console_warn, sleep, log, ret; simpl;
  destruct (_ <? _)%nat; simpl;
  eexists; (split; [reflexivity|]); repeat split; log_eq.

Module GetNewsSteps.
Import GetNews.

Section Steps.

Variable API_KEY : option string.
Variable upstream : Upstream.
Variable payload : value.
Variable maxRetries : nat.

Local Abbreviation req := (outbound API_KEY payload).
Local Abbreviation iter :=
  (GetNews.iteration API_KEY upstream payload maxRetries).

(** What a failed attempt leaves in the trace: the call, one warning with
    the number of the attempt, counted from one, and the message, and the
    timer unless the attempt is the last. *)
Lemma iteration_failure_log (attempt : nat) (w : World) (e : exn) :
  failure (upstream (calls w) req) = Some e ->
  exists w',
    iter attempt w =
      (Normal (if (attempt <? maxRetries - 1)%nat then None
               else Some (exhausted e)), w')
    /\ calls w' = S (calls w)
    /\ timeline (trace w') =
         (timeline (trace w) ++ Fetch req ::
            (if (attempt <? maxRetries - 1)%nat
             then [Timer (2 ^ Z.of_nat attempt * 1000)] else []))%list
    /\ warnings (trace w') =
         (warnings (trace w)
          ++ [[LogText ("Attempt " ++ string_of_nat (attempt + 1)
                        ++ " failed: " ++ exn_message e)]])%list.
Proof.
  intros Hfail.
  unfold iteration, try_catch, attempt_body, bind, fetch.
  unfold failure in Hfail.
  destruct (upstream (calls w) req) as [e0|r].
  - injection Hfail as ->. run_catch_log.
  - unfold response_json, throw, ret.
    destruct (json r) as [e0|v].
    + injection Hfail as ->. destruct (ok r); simpl; run_catch_log.
    + destruct (ok r); [discriminate|]. injection Hfail as <-. simpl.
      unfold bind, console_error, log. run_catch_log.
Qed.

(** One turn of the loop on a failed attempt. *)
Lemma retry_loop_failure (remaining : nat) (w : World) (e : exn) :
  failure (upstream (calls w) req) = Some e ->
  exists w',
    retry_loop API_KEY upstream payload maxRetries (S remaining) w =
      (if (maxRetries - S remaining <? maxRetries - 1)%nat
       then retry_loop API_KEY upstream payload maxRetries remaining w'
       else (Normal (Some (exhausted e)), w'))
    /\ calls w' = S (calls w)
    /\ timeline (trace w') =
         (timeline (trace w) ++ Fetch req ::
            (if (maxRetries - S remaining <? maxRetries - 1)%nat
             then [Timer (2 ^ Z.of_nat (maxRetries - S remaining) * 1000)]
             else []))%list
    /\ warnings (trace w') =
         (warnings (trace w)
          ++ [[LogText ("Attempt "
                        ++ string_of_nat (maxRetries - S remaining + 1)
                        ++ " failed: " ++ exn_message e)]])%list.
Proof.
  intros Hf.
  destruct (iteration_failure_log (maxRetries - S remaining) w e Hf)
    as (w' & Hrun & Hrest).
  exists w'. split; [|exact Hrest].
  rewrite GetNewsFacts.retry_loop_S, Hrun.
  destruct (maxRetries - S remaining <? maxRetries - 1)%nat; reflexivity.
Qed.

(** When every attempt fails, the calls alternate with the timers and no
    timer follows the last call. *)
Lemma retry_loop_gives_up (remaining : nat) :
  forall w : World,
    (1 <= remaining)%nat -> (remaining <= maxRetries)%nat ->
    (forall i, (i < remaining)%nat ->
               failure (upstream (calls w + i) req) <> None) ->
    exists e w',
      retry_loop API_KEY upstream payload maxRetries remaining w =
        (Normal (Some (exhausted e)), w')
      /\ timeline (trace w') =
           (timeline (trace w) ++ exhaustion req maxRetries remaining)%list.
Proof.
  induction remaining as [|remaining IH]; intros w Hpos Hle Hall; [lia|].
  destruct (failure (upstream (calls w) req)) as [e|] eqn:Hf.
  2:{ exfalso. apply (Hall 0%nat); [lia|]. rewrite Nat.add_0_r. exact Hf. }
  destruct (retry_loop_failure remaining w e Hf)
    as (w1 & Hrun & Hcalls & Htl & _).
  rewrite Hrun. simpl exhaustion.
  destruct (maxRetries - S remaining <? maxRetries - 1)%nat eqn:Hlast.
  - apply Nat.ltb_lt in Hlast.
    destruct (IH w1) as (e' & w2 & Hloop & Htl2); [lia|lia| |].
    + intros i Hi. rewrite Hcalls.
      replace (S (calls w) + i)%nat with (calls w + S i)%nat by lia.
      apply Hall. lia.
    + exists e', w2. split; [exact Hloop|].
      rewrite Htl2, Htl, <- !app_assoc. reflexivity.
  - apply Nat.ltb_ge in Hlast.
    assert (remaining = 0)%nat as -> by lia.
    exists e, w1. split; [reflexivity|].
    rewrite Htl. simpl. rewrite ?app_nil_r. reflexivity.
Qed.

End Steps.

End GetNewsSteps.

(** The first attempt that succeeds ends the invocation of
    [netlify/get-news.js]: the result is 200 with the body of that answer,
    whatever its 2xx status; one call was made per attempt; a timer of
    [2^attempt] seconds follows each failed attempt; and what the upstream
    would answer to further calls plays no part. *)
Theorem first_success_is_returned
  (API_KEY : option string) (upstream : Upstream) (event : Event)
  (payload : value) (failures : nat) (r : response) (v : value) :
  configured API_KEY = true ->
  httpMethod event = "POST" ->
  JSON_parse (ToString (body event)) = Some payload ->
  has_contents payload = true ->
  (failures < GetNews.maxRetries)%nat ->
  (forall i, (i < failures)%nat ->
             failure (upstream i (GetNews.outbound API_KEY payload)) <> None) ->
  upstream failures (GetNews.outbound API_KEY payload) = Responds r ->
  ok r = true ->
  json r = inr v ->
  outcome (GetNews.handler API_KEY upstream event) =
    Normal (Some (mkResult 200 [("Content-Type", "application/json")]
                           (JSON_stringify v)))
  /\ requests (effects (GetNews.handler API_KEY upstream event)) =
       repeat (GetNews.outbound API_KEY payload) (S failures)
  /\ timeline (effects (GetNews.handler API_KEY upstream event)) =
       recovery (GetNews.outbound API_KEY payload) 0 failures.
Proof.
  intros Hk Hm Hp Hc Hlt Hfails Hup Hok Hj.
  unfold outcome, effects.
  rewrite (GetNewsPaths.dispatches _ _ _ _ Hm Hk Hp Hc).
  destruct (GetNewsFacts.retry_loop_recovers API_KEY upstream payload
              GetNews.maxRetries failures r v GetNews.maxRetries start)
    as (w' & Hrun & Htl); auto.
  rewrite Hrun. simpl fst. simpl snd.
  rewrite Nat.sub_diag in Htl. simpl in Htl.
  repeat split; [|exact Htl].
  rewrite <- requests_timeline, Htl. apply requests_recovery.
Qed.

Lemma first_success_is_returned_witness :
  outcome (GetNews.handler sample_key always_200
             (mkEvent "POST" (Body raw_payload_text))) =
    Normal (Some (mkResult 200 [("Content-Type", "application/json")]
                           (JSON_stringify generated)))
  /\ requests (effects (GetNews.handler sample_key always_200
                          (mkEvent "POST" (Body raw_payload_text)))) =
       repeat (GetNews.outbound sample_key raw_payload_value) 1
  /\ timeline (effects (GetNews.handler sample_key always_200
                          (mkEvent "POST" (Body raw_payload_text)))) =
       recovery (GetNews.outbound sample_key raw_payload_value) 0 0.
Proof.
  apply (first_success_is_returned sample_key always_200
           (mkEvent "POST" (Body raw_payload_text)) raw_payload_value 0
           (mkResponse 200 (inr generated)) generated).
  - reflexivity.
  - reflexivity.
  - vm_compute. reflexivity.
  - reflexivity.
  - unfold GetNews.maxRetries. lia.
  - intros i Hi. lia.
  - reflexivity.
  - reflexivity.
  - reflexivity.
Defined.

(** When each of the three attempts of [netlify/get-news.js] fails, the
    calls and timers are: call, 1000 ms, call, 2000 ms, call.  No timer is
    armed after the last attempt. *)
Theorem no_wait_after_last_attempt
  (API_KEY : option string) (upstream : Upstream) (event : Event)
  (payload : value) :
  configured API_KEY = true ->
  httpMethod event = "POST" ->
  JSON_parse (ToString (body event)) = Some payload ->
  has_contents payload = true ->
  (forall n, (n < GetNews.maxRetries)%nat ->
             failure (upstream n (GetNews.outbound API_KEY payload))
             <> None) ->
  timeline (effects (GetNews.handler API_KEY upstream event)) =
    [Fetch (GetNews.outbound API_KEY payload); Timer 1000;
     Fetch (GetNews.outbound API_KEY payload); Timer 2000;
     Fetch (GetNews.outbound API_KEY payload)].
Proof.
  intros Hk Hm Hp Hc Hall. unfold effects.
  rewrite (GetNewsPaths.dispatches _ _ _ _ Hm Hk Hp Hc).
  destruct (GetNewsSteps.retry_loop_gives_up API_KEY upstream payload
              GetNews.maxRetries GetNews.maxRetries start)
    as (e & w' & Hrun & Htl); [unfold GetNews.maxRetries; lia|lia
                              |exact Hall|].
  rewrite Hrun. simpl snd. rewrite Htl. reflexivity.
Qed.

Lemma no_wait_after_last_attempt_witness :
  timeline (effects (GetNews.handler sample_key always_503
                       (mkEvent "POST" (Body raw_payload_text)))) =
    [Fetch (GetNews.outbound sample_key raw_payload_value); Timer 1000;
     Fetch (GetNews.outbound sample_key raw_payload_value); Timer 2000;
     Fetch (GetNews.outbound sample_key raw_payload_value)].
Proof.
  apply (no_wait_after_last_attempt sample_key always_503
           (mkEvent "POST" (Body raw_payload_text)) raw_payload_value).
  - reflexivity.
  - reflexivity.
  - vm_compute. reflexivity.
  - reflexivity.
  - intros n _. simpl. discriminate.
Defined.

Lemma three_attempts_schedule (API_KEY : option string) (upstream : Upstream)
  (payload : value) :
  In (timeline
        (trace (snd (GetNews.retry_loop API_KEY upstream payload
                       GetNews.maxRetries GetNews.maxRetries start))))
     (schedules (GetNews.outbound API_KEY payload)).
Proof.
  set (req := GetNews.outbound API_KEY payload).
  assert (forall failures r v,
             (failures < 3)%nat ->
             (forall i, (i < failures)%nat ->
                        failure (upstream i req) <> None) ->
             upstream failures req = Responds r ->
             ok r = true -> json r = inr v ->
             timeline
               (trace (snd (GetNews.retry_loop API_KEY upstream payload
                              GetNews.maxRetries GetNews.maxRetries start)))
             = recovery req 0 failures) as Hrec.
  { intros failures r v Hlt Hfails Hup Hok Hj.
    destruct (GetNewsFacts.retry_loop_recovers API_KEY upstream payload
                GetNews.maxRetries failures r v GetNews.maxRetries start)
      as (w' & Hrun & Htl); auto.
    rewrite Hrun. simpl snd. rewrite Htl, Nat.sub_diag. reflexivity. }
  destruct (failure (upstream 0%nat req)) as [e0|] eqn:H0.
  2:{ destruct (GetNewsFacts.failure_None _ H0) as (r & v & Hup & Hok & Hj).
      rewrite (Hrec 0%nat r v); auto; [simpl; auto|lia]. }
  destruct (failure (upstream 1%nat req)) as [e1|] eqn:H1.
  2:{ destruct (GetNewsFacts.failure_None _ H1) as (r & v & Hup & Hok & Hj).
      rewrite (Hrec 1%nat r v); auto; [simpl; auto|].
      intros i Hi. assert (i = 0)%nat as -> by lia.
      rewrite H0. discriminate. }
  destruct (failure (upstream 2%nat req)) as [e2|] eqn:H2.
  2:{ destruct (GetNewsFacts.failure_None _ H2) as (r & v & Hup & Hok & Hj).
      rewrite (Hrec 2%nat r v); auto; [simpl; auto|].
      intros i Hi.
      destruct i as [|[|i]];
        [rewrite H0; discriminate|rewrite H1; discriminate|lia]. }
  destruct (GetNewsSteps.retry_loop_gives_up API_KEY upstream payload
              GetNews.maxRetries GetNews.maxRetries start)
    as (e & w' & Hrun & Htl); [unfold GetNews.maxRetries; lia|lia| |].
  { intros i Hi. simpl.
    destruct i as [|[|[|i]]];
      [fold req; rewrite H0; discriminate
      |fold req; rewrite H1; discriminate
      |fold req; rewrite H2; discriminate|].
    unfold GetNews.maxRetries in Hi. lia. }
  rewrite Hrun. simpl snd. rewrite Htl. simpl. auto.
Qed.

(** Whatever the request and whatever the upstream does,
    [netlify/get-news.js] makes no call at all, or, for a payload it
    accepts, one, two or three calls of the same request, with a timer of
    1000 ms between the first two and of 2000 ms between the last two: never
    a fourth call, never more than 3000 ms of requested delay, never a timer
    after the last call. *)
Theorem bounded_schedule
  (API_KEY : option string) (upstream : Upstream) (event : Event) :
  timeline (effects (GetNews.handler API_KEY upstream event)) = []
  \/ exists payload,
       JSON_parse (ToString (body event)) = Some payload
       /\ has_contents payload = true
       /\ In (timeline (effects (GetNews.handler API_KEY upstream event)))
             (schedules (GetNews.outbound API_KEY payload)).
Proof.
  unfold effects.
  destruct (String.eqb_spec (httpMethod event) "POST") as [Hm|Hm].
  2:{ rewrite (GetNewsPaths.not_post _ _ _ Hm). left. reflexivity. }
  destruct (configured API_KEY) eqn:Hk.
  2:{ rewrite (GetNewsPaths.key_missing _ _ _ Hm Hk). left. reflexivity. }
  destruct (JSON_parse (ToString (body event))) as [payload|] eqn:Hp.
  2:{ rewrite (GetNewsPaths.unparseable _ _ _ Hm Hk Hp). left. reflexivity. }
  destruct (has_contents payload) eqn:Hc.
  2:{ rewrite (GetNewsPaths.contents_missing _ _ _ _ Hm Hk Hp Hc).
      left. reflexivity. }
  right. exists payload. repeat split; auto.
  rewrite (GetNewsPaths.dispatches _ _ _ _ Hm Hk Hp Hc).
  apply three_attempts_schedule.
Qed.

(** How [netlify/get-news.js] reports the last failure once the retries are
    used up.  A non-2xx answer with a JSON body is reported by its status
    alone: the upstream error body is not passed on.  An answer whose body
    cannot be read as JSON counts as a failure even when its status is 2xx,
    and is reported with the message of the reader's error. *)
Theorem last_failure_is_reported
  (API_KEY : option string) (upstream : Upstream) (event : Event)
  (payload : value) (r : response) :
  configured API_KEY = true ->
  httpMethod event = "POST" ->
  JSON_parse (ToString (body event)) = Some payload ->
  has_contents payload = true ->
  failure (upstream 0%nat (GetNews.outbound API_KEY payload)) <> None ->
  failure (upstream 1%nat (GetNews.outbound API_KEY payload)) <> None ->
  upstream 2%nat (GetNews.outbound API_KEY payload) = Responds r ->
  (forall errorBody,
      ok r = false ->
      json r = inr errorBody ->
      outcome (GetNews.handler API_KEY upstream event) =
        Normal (Some (mkResult 502 []
          (JSON_stringify
             (VObject
                [("error",
                  VString "Failed to communicate with the Gemini API after multiple retries.");
                 ("details",
                  VString ("Gemini API returned status "
                           ++ string_of_Z (status r)))])))))
  /\ (forall e,
         json r = inl e ->
         outcome (GetNews.handler API_KEY upstream event) =
           Normal (Some (mkResult 502 []
             (JSON_stringify
                (VObject
                   [("error",
                     VString "Failed to communicate with the Gemini API after multiple retries.");
                    ("details", VString (exn_message e))]))))).
Proof.
  intros Hk Hm Hp Hc H0 H1 H2.
  unfold outcome.
  rewrite (GetNewsPaths.dispatches _ _ _ _ Hm Hk Hp Hc).
  assert (forall e,
             failure (Responds r) = Some e ->
             fst (GetNews.retry_loop API_KEY upstream payload
                    GetNews.maxRetries GetNews.maxRetries start) =
             Normal (Some (GetNews.exhausted e))) as Hlast.
  { intros e He.
    destruct (GetNewsFacts.retry_loop_exhausts API_KEY upstream payload
                GetNews.maxRetries GetNews.maxRetries start)
      as (e' & w' & Hrun & Hf & _); [unfold GetNews.maxRetries; lia|lia| |].
    - intros i Hi.
      destruct i as [|[|[|i]]]; [exact H0|exact H1| |].
      + change (failure (upstream 2%nat (GetNews.outbound API_KEY payload))
                <> None).
        rewrite H2, He. discriminate.
      + unfold GetNews.maxRetries in Hi. lia.
    - rewrite Hrun.
      change (failure (upstream 2%nat (GetNews.outbound API_KEY payload))
              = Some e') in Hf.
      rewrite H2, He in Hf. injection Hf as <-. reflexivity. }
  split.
  - intros errorBody Hok Hj.
    apply (Hlast (new_Error ("Gemini API returned status "
                             ++ string_of_Z (status r)))).
    unfold failure. rewrite Hj, Hok. reflexivity.
  - intros e Hj. apply (Hlast e). unfold failure. rewrite Hj. reflexivity.
Qed.

Lemma last_failure_is_reported_witness :
  outcome (GetNews.handler sample_key always_503
             (mkEvent "POST" (Body raw_payload_text))) =
    Normal (Some (mkResult 502 []
      (JSON_stringify
         (VObject
            [("error",
              VString "Failed to communicate with the Gemini API after multiple retries.");
             ("details",
              VString ("Gemini API returned status " ++ string_of_Z 503))])))).
Proof.
  assert (configured sample_key = true) as Hk by reflexivity.
  assert (JSON_parse (ToString (body (mkEvent "POST" (Body raw_payload_text))))
          = Some raw_payload_value) as Hp by (vm_compute; reflexivity).
  assert (failure (always_503 0%nat
                     (GetNews.outbound sample_key raw_payload_value))
          <> None) as H0 by (simpl; discriminate).
  apply (proj1 (last_failure_is_reported sample_key always_503
                  (mkEvent "POST" (Body raw_payload_text)) raw_payload_value
                  unavailable Hk eq_refl Hp eq_refl H0 H0 eq_refl)
           (error_object "The model is overloaded.")).
  - reflexivity.
  - reflexivity.
Defined.

Lemma retry_loop_warnings (API_KEY : option string) (upstream : Upstream)
  (payload : value) (maxRetries remaining : nat) :
  forall w : World,
    (remaining <= maxRetries)%nat ->
    calls w = (maxRetries - remaining)%nat ->
    warnings
      (trace (snd (GetNews.retry_loop API_KEY upstream payload maxRetries
                     remaining w))) =
    (warnings (trace w)
     ++ failed_attempt_warnings upstream (GetNews.outbound API_KEY payload)
          (maxRetries - remaining) remaining)%list.
Proof.
  induction remaining as [|remaining IH]; intros w Hle Hcalls.
  - simpl. rewrite app_nil_r. reflexivity.
  - cbn [failed_attempt_warnings]. rewrite <- Hcalls.
    destruct (failure (upstream (calls w) (GetNews.outbound API_KEY payload)))
      as [e|] eqn:Hf.
    + destruct (GetNewsSteps.retry_loop_failure API_KEY upstream payload
                  maxRetries remaining w e Hf)
        as (w' & Hrun & Hcalls' & _ & Hw).
      rewrite Hrun.
      destruct (maxRetries - S remaining <? maxRetries - 1)%nat eqn:Hlast.
      * apply Nat.ltb_lt in Hlast.
        rewrite IH; [|lia|lia].
        rewrite Hw, <- app_assoc. cbn [app].
        rewrite Hcalls.
        replace (S (maxRetries - S remaining)) with (maxRetries - remaining)%nat
          by lia.
        reflexivity.
      * apply Nat.ltb_ge in Hlast.
        assert (remaining = 0)%nat as -> by lia.
        cbn [snd failed_attempt_warnings]. rewrite Hw, Hcalls. reflexivity.
    + destruct (GetNewsFacts.failure_None _ Hf) as (r & v & Hup & Hok & Hj).
      rewrite GetNewsFacts.retry_loop_S.
      rewrite (GetNewsFacts.iteration_success API_KEY upstream payload
                 maxRetries _ w r v Hup Hok Hj).
      cbn [snd trace]. rewrite warnings_app. reflexivity.
Qed.

(** Each failed attempt of [netlify/get-news.js] is logged with exactly one
    [console.warn], which carries the number of the attempt, counted from
    one, and the message of the failure; a successful attempt logs none.
    So the warnings of an invocation that dispatches are those of its failed
    attempts, in order: of all three when the retries are used up, of the
    attempts before the first success otherwise. *)
Theorem one_warning_per_failed_attempt
  (API_KEY : option string) (upstream : Upstream) (event : Event)
  (payload : value) :
  configured API_KEY = true ->
  httpMethod event = "POST" ->
  JSON_parse (ToString (body event)) = Some payload ->
  has_contents payload = true ->
  warnings (effects (GetNews.handler API_KEY upstream event)) =
    failed_attempt_warnings upstream (GetNews.outbound API_KEY payload)
      0 GetNews.maxRetries
  /\ (forall e0,
         failure (upstream 0%nat (GetNews.outbound API_KEY payload)) = Some e0 ->
         failure (upstream 1%nat (GetNews.outbound API_KEY payload)) = None ->
         warnings (effects (GetNews.handler API_KEY upstream event)) =
           [[LogText ("Attempt 1 failed: " ++ exn_message e0)]])
  /\ (forall e0 e1,
         failure (upstream 0%nat (GetNews.outbound API_KEY payload)) = Some e0 ->
         failure (upstream 1%nat (GetNews.outbound API_KEY payload)) = Some e1 ->
         failure (upstream 2%nat (GetNews.outbound API_KEY payload)) = None ->
         warnings (effects (GetNews.handler API_KEY upstream event)) =
           [[LogText ("Attempt 1 failed: " ++ exn_message e0)];
            [LogText ("Attempt 2 failed: " ++ exn_message e1)]])
  /\ (forall e0 e1 e2,
         failure (upstream 0%nat (GetNews.outbound API_KEY payload)) = Some e0 ->
         failure (upstream 1%nat (GetNews.outbound API_KEY payload)) = Some e1 ->
         failure (upstream 2%nat (GetNews.outbound API_KEY payload)) = Some e2 ->
         warnings (effects (GetNews.handler API_KEY upstream event)) =
           [[LogText ("Attempt 1 failed: " ++ exn_message e0)];
            [LogText ("Attempt 2 failed: " ++ exn_message e1)];
            [LogText ("Attempt 3 failed: " ++ exn_message e2)]])
  /\ (failure (upstream 0%nat (GetNews.outbound API_KEY payload)) = None ->
      warnings (effects (GetNews.handler API_KEY upstream event)) = []).
Proof.
  intros Hk Hm Hp Hc.
  assert (warnings (effects (GetNews.handler API_KEY upstream event)) =
          failed_attempt_warnings upstream (GetNews.outbound API_KEY payload)
            0 GetNews.maxRetries) as Hgen.
  { unfold effects.
    rewrite (GetNewsPaths.dispatches _ _ _ _ Hm Hk Hp Hc).
    rewrite (retry_loop_warnings API_KEY upstream payload GetNews.maxRetries
               GetNews.maxRetries start);
      [|lia|rewrite Nat.sub_diag; reflexivity].
    rewrite Nat.sub_diag. reflexivity. }
  split; [exact Hgen|].
  rewrite Hgen. unfold GetNews.maxRetries. cbn [failed_attempt_warnings].
  repeat split.
  - intros e0 H0 H1. rewrite H0, H1. reflexivity.
  - intros e0 e1 H0 H1 H2. rewrite H0, H1, H2. reflexivity.
  - intros e0 e1 e2 H0 H1 H2. rewrite H0, H1, H2. reflexivity.
  - intros H0. rewrite H0. reflexivity.
Qed.

Lemma one_warning_per_failed_attempt_witness :
  warnings (effects (GetNews.handler sample_key fails_twice
                       (mkEvent "POST" (Body raw_payload_text)))) =
    [[LogText ("Attempt 1 failed: " ++ "fetch failed")];
     [LogText ("Attempt 2 failed: " ++ "Gemini API returned status 503")]].
Proof.
  assert (configured sample_key = true) as Hk by reflexivity.
  assert (JSON_parse (ToString (body (mkEvent "POST" (Body raw_payload_text))))
          = Some raw_payload_value) as Hp by (vm_compute; reflexivity).
  apply (proj1 (proj2 (proj2 (one_warning_per_failed_attempt sample_key
                                fails_twice
                                (mkEvent "POST" (Body raw_payload_text))
                                raw_payload_value Hk eq_refl Hp eq_refl)))
           (mkExn "TypeError" "fetch failed")
           (new_Error "Gemini API returned status 503")).
  - reflexivity.
  - reflexivity.
  - reflexivity.
Defined.

(** [netlify/get-news.js] accepts a JSON object only: a body that parses to
    anything else (an array, a string, a number, [true]) has no [contents]
    and is answered with 400 before any call. *)
Theorem payload_must_be_an_object
  (API_KEY : option string) (upstream : Upstream) (event : Event)
  (payload : value) :
  configured API_KEY = true ->
  httpMethod event = "POST" ->
  JSON_parse (ToString (body event)) = Some payload ->
  (forall props, payload <> VObject props) ->
  outcome (GetNews.handler API_KEY upstream event) =
    Normal (Some (mkResult 400 []
              (JSON_stringify
                 (error_object "Missing required 'contents' in payload."))))
  /\ effects (GetNews.handler API_KEY upstream event) = [].
Proof.
  intros Hk Hm Hp Hobj. unfold outcome, effects.
  assert (has_contents payload = false) as Hc.
  { unfold has_contents.
    destruct payload as [| |b|n|s|elems|props]; simpl;
      rewrite ?andb_false_r; try reflexivity.
    exfalso. apply (Hobj props). reflexivity. }
  rewrite (GetNewsPaths.contents_missing _ _ _ _ Hm Hk Hp Hc).
  split; reflexivity.
Qed.

Lemma payload_must_be_an_object_witness :
  outcome (GetNews.handler sample_key always_200
             (mkEvent "POST" (Body ("[" ++ quote "contents" ++ "]")))) =
    Normal (Some (mkResult 400 []
              (JSON_stringify
                 (error_object "Missing required 'contents' in payload."))))
  /\ effects (GetNews.handler sample_key always_200
                (mkEvent "POST" (Body ("[" ++ quote "contents" ++ "]")))) = [].
Proof.
  apply (payload_must_be_an_object sample_key always_200
           (mkEvent "POST" (Body ("[" ++ quote "contents" ++ "]")))
           (VArray [VString "contents"])).
  - reflexivity.
  - reflexivity.
  - vm_compute. reflexivity.
  - intros props. discriminate.
Defined.

(** ** Reading back what [JSON.stringify] wrote *)

Lemma append_assoc (a b c : string) : (a ++ b) ++ c = a ++ b ++ c.
Proof.
  induction a as [|x a IH]; simpl; [reflexivity|]. rewrite IH. reflexivity.
Qed.

(** Every byte that [JSON.stringify] writes inside the quotes, escaped or
    not, is read back as itself. *)
Lemma lex_quote_char (c : ascii) (rest : string) :
  lex_string LexChars None (quote_char c ++ rest) =
  emit (String c EmptyString) (lex_string LexChars None rest).
Proof.
  destruct c as [[] [] [] [] [] [] [] []]; reflexivity.
Qed.

Lemma lex_quoted (s rest : string) :
  lex_string LexChars None (quote_chars s ++ dquote ++ rest) = Some (s, rest).
Proof.
  induction s as [|c s IH].
  - reflexivity.
  - simpl quote_chars. rewrite append_assoc, lex_quote_char, IH. reflexivity.
Qed.

Lemma exhausted_body_text (msg : string) (f : nat) :
  parse_value (S (S (S (S f))))
    ("{" ++ join ","
              [quote "error" ++ ":"
               ++ quote "Failed to communicate with the Gemini API after multiple retries.";
               quote "details" ++ ":" ++ quote msg] ++ "}")
  = Some (VObject
            [("error",
              VString "Failed to communicate with the Gemini API after multiple retries.");
             ("details", VString msg)], EmptyString).
Proof.
  unfold join, quote at 4.
  rewrite !append_assoc.
  cbn.
  change (lex_string LexChars None (quote_chars msg ++ String _ "}"))
    with (lex_string LexChars None (quote_chars msg ++ dquote ++ "}")).
  rewrite lex_quoted. reflexivity.
Qed.

Lemma exhausted_body_parses (msg : string) :
  exists text,
    JSON_stringify
      (VObject
         [("error",
           VString "Failed to communicate with the Gemini API after multiple retries.");
          ("details", VString msg)]) = Some text
    /\ JSON_parse text =
         Some (VObject
                 [("error",
                   VString "Failed to communicate with the Gemini API after multiple retries.");
                  ("details", VString msg)]).
Proof.
  exists ("{" ++ join ","
                   [quote "error" ++ ":"
                    ++ quote "Failed to communicate with the Gemini API after multiple retries.";
                    quote "details" ++ ":" ++ quote msg] ++ "}").
  split; [reflexivity|].
  unfold JSON_parse.
  set (t := join "," _ ++ "}").
  assert (exists f, (2 * String.length ("{" ++ t) + 2 = S (S (S (S f))))%nat)
    as [f ->].
  { exists (2 * String.length t)%nat.
    change ("{" ++ t) with (String "{" t). cbn [String.length]. lia. }
  subst t. rewrite exhausted_body_text. reflexivity.
Qed.

(** The body of the 502 of [netlify/get-news.js] is well-formed JSON
    whatever bytes the message of the last failure holds (quotes,
    backslashes, control characters): [JSON.parse] reads it back as the
    object [{error, details}] whose [details] is exactly that message. *)
Theorem gateway_error_body_reads_back
  (API_KEY : option string) (upstream : Upstream) (event : Event)
  (payload : value) :
  configured API_KEY = true ->
  httpMethod event = "POST" ->
  JSON_parse (ToString (body event)) = Some payload ->
  has_contents payload = true ->
  (forall n, (n < GetNews.maxRetries)%nat ->
             failure (upstream n (GetNews.outbound API_KEY payload))
             <> None) ->
  exists last text,
    failure (upstream 2%nat (GetNews.outbound API_KEY payload)) = Some last
    /\ outcome (GetNews.handler API_KEY upstream event) =
         Normal (Some (mkResult 502 [] (Some text)))
    /\ JSON_parse text =
         Some (VObject
                 [("error",
                   VString "Failed to communicate with the Gemini API after multiple retries.");
                  ("details", VString (exn_message last))]).
Proof.
  intros Hk Hm Hp Hc Hall. unfold outcome.
  rewrite (GetNewsPaths.dispatches _ _ _ _ Hm Hk Hp Hc).
  destruct (GetNewsFacts.retry_loop_exhausts API_KEY upstream payload
              GetNews.maxRetries GetNews.maxRetries start)
    as (e & w' & Hrun & Hlast & _); [unfold GetNews.maxRetries; lia
                                    |lia|exact Hall|].
  destruct (exhausted_body_parses (exn_message e)) as (text & Htext & Hback).
  exists e, text. rewrite Hrun. unfold GetNews.exhausted. rewrite Htext.
  repeat split; [exact Hlast|exact Hback].
Qed.

Lemma gateway_error_body_reads_back_witness :
  exists last text,
    failure (rejects_with_quotes 2%nat
               (GetNews.outbound sample_key raw_payload_value)) = Some last
    /\ outcome (GetNews.handler sample_key rejects_with_quotes
                  (mkEvent "POST" (Body raw_payload_text))) =
         Normal (Some (mkResult 502 [] (Some text)))
    /\ JSON_parse text =
         Some (VObject
                 [("error",
                   VString "Failed to communicate with the Gemini API after multiple retries.");
                  ("details", VString (exn_message last))]).
Proof.
  apply (gateway_error_body_reads_back sample_key rejects_with_quotes
           (mkEvent "POST" (Body raw_payload_text)) raw_payload_value).
  - reflexivity.
  - reflexivity.
  - vm_compute. reflexivity.
  - reflexivity.
  - intros n _. simpl. discriminate.
Defined.

(** ** Further properties of the typed-intent handler *)

Lemma parse_elements_array (fuel : nat) :
  forall s acc v r,
    parse_elements fuel s acc = Some (v, r) -> exists elems, v = VArray elems.
Proof.
  induction fuel as [|fuel IH]; intros s acc v r; simpl; [discriminate|].
  destruct (parse_value fuel s) as [[x t]|]; [|discriminate].
  destruct (skip_ws t) as [|c t']; [discriminate|].
  destruct (is_char c 44); [apply IH|].
  destruct (is_char c 93); [|discriminate].
  intros H. injection H as <- _. eauto.
Qed.

Lemma parse_members_object (fuel : nat) :
  forall s acc v r,
    parse_members fuel s acc = Some (v, r) -> exists props, v = VObject props.
Proof.
  induction fuel as [|fuel IH]; intros s acc v r; simpl; [discriminate|].
  destruct (skip_ws s) as [|q t]; [discriminate|].
  destruct (is_char q 34); [|discriminate].
  destruct (lex_string LexChars None t) as [[k t1]|]; [|discriminate].
  destruct (skip_ws t1) as [|colon t2]; [discriminate|].
  destruct (is_char colon 58); [|discriminate].
  destruct (parse_value fuel t2) as [[x t3]|]; [|discriminate].
  destruct (skip_ws t3) as [|c t4]; [discriminate|].
  destruct (is_char c 44); [apply IH|].
  destruct (is_char c 125); [|discriminate].
  intros H. injection H as <- _. eauto.
Qed.

(** [JSON.parse] never yields [undefined]. *)
Lemma JSON_parse_defined (text : string) (v : value) :
  JSON_parse text = Some v -> v <> VUndefined.
Proof.
  unfold JSON_parse.
  destruct (parse_value (2 * String.length text + 2) text) as [[x r]|] eqn:Hp;
    [|discriminate].
  destruct (skip_ws r); [|discriminate].
  intros H. injection H as <-.
  destruct (2 * String.length text + 2)%nat as [|fuel]; [discriminate|].
  simpl in Hp.
  destruct (skip_ws text) as [|c t]; [discriminate|].
  repeat match type of Hp with
         | (if ?b then _ else _) = _ => destruct b
         | match ?m with _ => _ end = _ => destruct m eqn:?
         end;
    try discriminate;
    try (injection Hp as <- _; discriminate);
    try (apply parse_members_object in Hp as [props ->]; discriminate);
    try (apply parse_elements_array in Hp as [elems ->]; discriminate).
Qed.

Lemma member_null_or_undefined (parsed : value) (e : exn) :
  member parsed "type" = inl e -> parsed = VUndefined \/ parsed = VNull.
Proof.
  destruct parsed; simpl; auto; discriminate.
Qed.

(** The typed-intent handler raises exactly when the credential is
    configured and the body is not JSON or is the JSON text [null]: a
    [SyntaxError] in the first case, a [TypeError] in the second.  Nothing
    has been sent or logged when it does. *)
Theorem raises_on_unreadable_or_null_body
  (API_KEY : option string) (upstream : Upstream) (event : Event) :
  ((exists e, outcome (Part000.handler API_KEY upstream event) = Throw e)
   <-> configured API_KEY = true
       /\ (JSON_parse (or_default (body event) "{}") = None
           \/ JSON_parse (or_default (body event) "{}") = Some VNull))
  /\ (JSON_parse (or_default (body event) "{}") = None ->
      configured API_KEY = true ->
      outcome (Part000.handler API_KEY upstream event) = Throw SyntaxError
      /\ effects (Part000.handler API_KEY upstream event) = [])
  /\ (JSON_parse (or_default (body event) "{}") = Some VNull ->
      configured API_KEY = true ->
      outcome (Part000.handler API_KEY upstream event) =
        Throw (TypeError_null "type")
      /\ effects (Part000.handler API_KEY upstream event) = []).
Proof.
  unfold outcome, effects. split; [|split].
  - destruct (configured API_KEY) eqn:Hk.
    2:{ rewrite (Part000Paths.key_not_configured _ _ _ Hk). simpl.
        split; [intros [e He]; discriminate|intros [Hf _]; discriminate]. }
    destruct (JSON_parse (or_default (body event) "{}")) as [parsed|] eqn:Hp.
    2:{ rewrite (Part000Paths.parse_throws _ _ _ Hk Hp). simpl.
        split; eauto. }
    destruct (Part000Paths.parsed_cases parsed)
      as [[e He] | [Hu | [payload Hi]]].
    + rewrite (Part000Paths.type_throws _ _ _ _ _ Hk Hp He). simpl.
      split; [|eauto]. intros _. split; [reflexivity|]. right.
      destruct (member_null_or_undefined _ _ He) as [-> | ->];
        [|reflexivity].
      exfalso. exact (JSON_parse_defined _ _ Hp eq_refl).
    + rewrite (Part000Paths.rejects _ _ _ _ Hk Hp Hu). simpl.
      split; [intros [e He]; discriminate|].
      intros [_ [Hf | Hf]]; [discriminate|].
      injection Hf as ->. discriminate.
    + rewrite (Part000Paths.translates _ _ _ _ _ Hk Hp Hi).
      destruct (Part000Paths.dispatch_returns API_KEY upstream payload start)
        as (res & w' & Hrun & _).
      rewrite Hrun. simpl.
      split; [intros [e He]; discriminate|].
      intros [_ [Hf | Hf]]; [discriminate|].
      injection Hf as ->. discriminate.
  - intros Hp Hk. rewrite (Part000Paths.parse_throws _ _ _ Hk Hp).
    split; reflexivity.
  - intros Hp Hk.
    rewrite (Part000Paths.type_throws _ _ _ VNull _ Hk Hp eq_refl).
    split; reflexivity.
Qed.

Lemma raises_on_unreadable_or_null_body_witness :
  (outcome (Part000.handler sample_key always_200
              (mkEvent "POST" (Body "{not json"))) = Throw SyntaxError
   /\ effects (Part000.handler sample_key always_200
                 (mkEvent "POST" (Body "{not json"))) = [])
  /\ (outcome (Part000.handler sample_key always_200
                 (mkEvent "POST" (Body "null"))) =
        Throw (TypeError_null "type")
      /\ effects (Part000.handler sample_key always_200
                    (mkEvent "POST" (Body "null"))) = []).
Proof.
  split.
  - apply (proj1 (proj2 (raises_on_unreadable_or_null_body sample_key
                           always_200 (mkEvent "POST" (Body "{not json"))))).
    + vm_compute. reflexivity.
    + reflexivity.
  - apply (proj2 (proj2 (raises_on_unreadable_or_null_body sample_key
                           always_200 (mkEvent "POST" (Body "null"))))).
    + vm_compute. reflexivity.
    + reflexivity.
Defined.

(** The typed-intent handler never retries and never waits: whatever the
    upstream does, it makes exactly one call when it has translated the
    request, and no call otherwise; no timer is ever armed. *)
Theorem at_most_one_call
  (API_KEY : option string) (upstream : Upstream) (event : Event) :
  timeline (effects (Part000.handler API_KEY upstream event)) =
    match translation API_KEY event with
    | Some payload => [Fetch (Part000.outbound API_KEY payload)]
    | None => []
    end.
Proof.
  unfold effects, translation.
  destruct (configured API_KEY) eqn:Hk.
  2:{ rewrite (Part000Paths.key_not_configured _ _ _ Hk). reflexivity. }
  destruct (JSON_parse (or_default (body event) "{}")) as [parsed|] eqn:Hp.
  2:{ rewrite (Part000Paths.parse_throws _ _ _ Hk Hp). reflexivity. }
  destruct (Part000Paths.parsed_cases parsed)
    as [[e He] | [Hu | [payload Hi]]].
  - rewrite (Part000Paths.type_throws _ _ _ _ _ Hk Hp He).
    unfold intent_payload. rewrite He. reflexivity.
  - rewrite (Part000Paths.rejects _ _ _ _ Hk Hp Hu).
    unfold intent_payload, unrecognized in *.
    destruct (member parsed "type") as [e|t]; [reflexivity|].
    apply andb_true_iff in Hu as [H1 H2].
    apply negb_true_iff in H1, H2. rewrite H1, H2. reflexivity.
  - rewrite (Part000Paths.translates _ _ _ _ _ Hk Hp Hi), Hi.
    destruct (thrown (upstream 0%nat (Part000.outbound API_KEY payload)))
      as [e|] eqn:Ht.
    + rewrite (Part000Paths.dispatch_catches _ _ _ start e Ht). reflexivity.
    + unfold thrown in Ht.
      destruct (upstream 0%nat (Part000.outbound API_KEY payload))
        as [e|r] eqn:Hup; [discriminate|].
      destruct (json r) as [e|v] eqn:Hj; [discriminate|].
      destruct (ok r) eqn:Hok.
      * rewrite (Part000Paths.dispatch_success _ _ _ start r v Hup Hok Hj).
        reflexivity.
      * rewrite (Part000Paths.dispatch_forwards _ _ _ start r v Hup Hok Hj).
        reflexivity.
Qed.

(** A 2xx answer with a JSON body is passed through by the typed-intent
    handler: the result is 200, whatever the 2xx status was, its body is the
    serialized upstream body, it has no headers, and the call is the only
    effect of the invocation. *)
Theorem success_is_passed_through
  (API_KEY : option string) (upstream : Upstream) (event : Event)
  (payload : value) (r : response) (v : value) :
  translation API_KEY event = Some payload ->
  upstream 0%nat (Part000.outbound API_KEY payload) = Responds r ->
  ok r = true ->
  json r = inr v ->
  outcome (Part000.handler API_KEY upstream event) =
    Normal (mkResult 200 [] (JSON_stringify v))
  /\ effects (Part000.handler API_KEY upstream event) =
       [Fetch (Part000.outbound API_KEY payload)].
Proof.
  unfold translation, outcome, effects. intros Ht Hup Hok Hj.
  destruct (configured API_KEY) eqn:Hk; [|discriminate].
  destruct (JSON_parse (or_default (body event) "{}")) as [parsed|] eqn:Hp;
    [|discriminate].
  rewrite (Part000Paths.translates _ _ _ _ _ Hk Hp Ht).
  rewrite (Part000Paths.dispatch_success _ _ _ start r v Hup Hok Hj).
  split; reflexivity.
Qed.

Lemma success_is_passed_through_witness :
  outcome (Part000.handler sample_key
             (fun _ _ => Responds (mkResponse 204 (inr generated)))
             (mkEvent "POST" (Body fetch_text))) =
    Normal (mkResult 200 [] (JSON_stringify generated))
  /\ effects (Part000.handler sample_key
                (fun _ _ => Responds (mkResponse 204 (inr generated)))
                (mkEvent "POST" (Body fetch_text))) =
       [Fetch (Part000.outbound sample_key fetch_payload)].
Proof.
  apply (success_is_passed_through sample_key
           (fun _ _ => Responds (mkResponse 204 (inr generated)))
           (mkEvent "POST" (Body fetch_text)) fetch_payload
           (mkResponse 204 (inr generated)) generated).
  - vm_compute. reflexivity.
  - reflexivity.
  - reflexivity.
  - reflexivity.
Defined.

(** The statuses of the typed-intent handler: 500, 400 or 200, or else the
    status of a non-2xx answer of the upstream, which is passed on as it
    is. *)
Theorem status_is_local_or_upstream
  (API_KEY : option string) (upstream : Upstream) (event : Event)
  (res : result) :
  outcome (Part000.handler API_KEY upstream event) = Normal res ->
  In (statusCode res) [500; 400; 200]%Z
  \/ exists payload r,
       translation API_KEY event = Some payload
       /\ upstream 0%nat (Part000.outbound API_KEY payload) = Responds r
       /\ ok r = false
       /\ statusCode res = status r.
Proof.
  unfold outcome, translation.
  destruct (configured API_KEY) eqn:Hk.
  2:{ rewrite (Part000Paths.key_not_configured _ _ _ Hk). simpl.
      intros H. injection H as <-. left. simpl. auto. }
  destruct (JSON_parse (or_default (body event) "{}")) as [parsed|] eqn:Hp.
  2:{ rewrite (Part000Paths.parse_throws _ _ _ Hk Hp). discriminate. }
  destruct (Part000Paths.parsed_cases parsed)
    as [[e He] | [Hu | [payload Hi]]].
  - rewrite (Part000Paths.type_throws _ _ _ _ _ Hk Hp He). discriminate.
  - rewrite (Part000Paths.rejects _ _ _ _ Hk Hp Hu). simpl.
    intros H. injection H as <-. left. simpl. auto.
  - rewrite (Part000Paths.translates _ _ _ _ _ Hk Hp Hi).
    destruct (thrown (upstream 0%nat (Part000.outbound API_KEY payload)))
      as [e|] eqn:Ht.
    + rewrite (Part000Paths.dispatch_catches _ _ _ start e Ht). simpl.
      intros H. injection H as <-. left. simpl. auto.
    + unfold thrown in Ht.
      destruct (upstream 0%nat (Part000.outbound API_KEY payload))
        as [e|r] eqn:Hup; [discriminate|].
      destruct (json r) as [e|v] eqn:Hj; [discriminate|].
      destruct (ok r) eqn:Hok.
      * rewrite (Part000Paths.dispatch_success _ _ _ start r v Hup Hok Hj).
        simpl. intros H. injection H as <-. left. simpl. auto.
      * rewrite (Part000Paths.dispatch_forwards _ _ _ start r v Hup Hok Hj).
        simpl. intros H. injection H as <-. right.
        exists payload, r. auto.
Qed.

Lemma status_is_local_or_upstream_witness :
  In (statusCode
        (mkResult 503 []
           (JSON_stringify
              (VObject
                 [("error", VString ("External API call failed: "
                                     ++ string_of_Z 503));
                  ("details", error_object "The model is overloaded.")]))))
     [500; 400; 200]%Z
  \/ exists payload r,
       translation sample_key (mkEvent "POST" (Body fetch_text)) = Some payload
       /\ always_503 0%nat (Part000.outbound sample_key payload) = Responds r
       /\ ok r = false
       /\ statusCode
            (mkResult 503 []
               (JSON_stringify
                  (VObject
                     [("error", VString ("External API call failed: "
                                         ++ string_of_Z 503));
                      ("details", error_object "The model is overloaded.")])))
          = status r.
Proof.
  apply (status_is_local_or_upstream sample_key always_503
           (mkEvent "POST" (Body fetch_text))).
  vm_compute. reflexivity.
Defined.

(** For the intent [fetch] nothing of the body but its [type] reaches the
    upstream: the request is the same for every such body, with the fixed
    question, the fixed instruction and the search tool. *)
Theorem fetch_ignores_the_rest_of_the_body
  (API_KEY : option string) (upstream : Upstream) (event : Event)
  (parsed : value) :
  configured API_KEY = true ->
  JSON_parse (or_default (body event) "{}") = Some parsed ->
  member parsed "type" = inr (VString "fetch") ->
  requests (effects (Part000.handler API_KEY upstream event)) =
    [Part000.outbound API_KEY
       (Part000.provider_payload (VString Part000.fetch_userQuery)
          Part000.fetch_systemPrompt Part000.search_tools)].
Proof.
  intros Hk Hp Ht. unfold effects.
  assert (intent_payload parsed =
          Some (Part000.provider_payload (VString Part000.fetch_userQuery)
                  Part000.fetch_systemPrompt Part000.search_tools)) as Hi.
  { unfold intent_payload. rewrite Ht. reflexivity. }
  rewrite (Part000Paths.translates _ _ _ _ _ Hk Hp Hi).
  destruct (Part000Paths.dispatch_returns API_KEY upstream
              (Part000.provider_payload (VString Part000.fetch_userQuery)
                 Part000.fetch_systemPrompt Part000.search_tools) start)
    as (res & w' & Hrun & Hreq).
  rewrite Hrun. exact Hreq.
Qed.

Lemma fetch_ignores_the_rest_of_the_body_witness :
  requests (effects (Part000.handler sample_key always_200
                       (mkEvent "POST" (Body both_text)))) =
    [Part000.outbound sample_key
       (Part000.provider_payload (VString Part000.fetch_userQuery)
          Part000.fetch_systemPrompt Part000.search_tools)].
Proof.
  apply (fetch_ignores_the_rest_of_the_body sample_key always_200
           (mkEvent "POST" (Body both_text))
           (VObject [("type", VString "fetch"); ("contents", VString "hi")])).
  - reflexivity.
  - vm_compute. reflexivity.
  - reflexivity.
Defined.

(** For the intent [summarize] the handler sends whatever
    [textToSummarize] holds, a string or not, empty or not, as the user
    content; when the field is absent the request is still sent, and its
    user part goes on the wire as the empty object. *)
Theorem summarize_sends_any_text
  (API_KEY : option string) (upstream : Upstream) (event : Event)
  (parsed userQuery : value) :
  configured API_KEY = true ->
  JSON_parse (or_default (body event) "{}") = Some parsed ->
  member parsed "type" = inr (VString "summarize") ->
  member parsed "textToSummarize" = inr userQuery ->
  exists payload,
    requests (effects (Part000.handler API_KEY upstream event)) =
      [Part000.outbound API_KEY payload]
    /\ at_path payload [inl "contents"; inr 0%nat; inl "parts"; inr 0%nat;
                        inl "text"] = Some userQuery
    /\ (userQuery = VUndefined ->
        req_body (Part000.outbound API_KEY payload) =
          JSON_stringify
            (VObject
               [("contents", VArray [VObject [("parts", VArray [VObject []])]]);
                ("systemInstruction",
                 VObject
                   [("parts",
                     VArray
                       [VObject
                          [("text",
                            VString Part000.summarize_systemPrompt)]])])])).
Proof.
  intros Hk Hp Ht Hu.
  assert (intent_payload parsed =
          Some (Part000.provider_payload userQuery
                  Part000.summarize_systemPrompt [])) as Hi.
  { unfold intent_payload. rewrite Ht, Hu. reflexivity. }
  exists (Part000.provider_payload userQuery Part000.summarize_systemPrompt []).
  split; [|split].
  - unfold effects. rewrite (Part000Paths.translates _ _ _ _ _ Hk Hp Hi).
    destruct (Part000Paths.dispatch_returns API_KEY upstream
                (Part000.provider_payload userQuery
                   Part000.summarize_systemPrompt []) start)
      as (res & w' & Hrun & Hreq).
    rewrite Hrun. exact Hreq.
  - reflexivity.
  - intros ->. vm_compute. reflexivity.
Qed.

Lemma summarize_sends_any_text_witness :
  exists payload,
    requests (effects (Part000.handler sample_key always_200
                         (mkEvent "POST"
                            (Body ("{" ++ quote "type" ++ ":"
                                   ++ quote "summarize" ++ "}"))))) =
      [Part000.outbound sample_key payload]
    /\ at_path payload [inl "contents"; inr 0%nat; inl "parts"; inr 0%nat;
                        inl "text"] = Some VUndefined
    /\ (VUndefined = VUndefined ->
        req_body (Part000.outbound sample_key payload) =
          JSON_stringify
            (VObject
               [("contents", VArray [VObject [("parts", VArray [VObject []])]]);
                ("systemInstruction",
                 VObject
                   [("parts",
                     VArray
                       [VObject
                          [("text",
                            VString Part000.summarize_systemPrompt)]])])])).
Proof.
  apply (summarize_sends_any_text sample_key always_200
           (mkEvent "POST"
              (Body ("{" ++ quote "type" ++ ":" ++ quote "summarize" ++ "}")))
           (VObject [("type", VString "summarize")]) VUndefined).
  - reflexivity.
  - vm_compute. reflexivity.
  - reflexivity.
  - reflexivity.
Defined.

(** Every outbound call of either handler is a POST, with the header
    [Content-Type: application/json] and a serialized payload as its body,
    to the [generateContent] URL of the fixed model, whose query carries the
    configured, non-empty credential: no call is ever made without one. *)
Theorem every_call_is_a_keyed_post
  (API_KEY : option string) (upstream : Upstream) (event : Event)
  (req : request) :
  In req (requests (effects (GetNews.handler API_KEY upstream event)))
  \/ In req (requests (effects (Part000.handler API_KEY upstream event))) ->
  method req = "POST"
  /\ req_headers req = [("Content-Type", "application/json")]
  /\ (exists payload, req_body req = JSON_stringify payload)
  /\ exists key,
       API_KEY = Some key /\ key <> ""
       /\ url req =
            "https://generativelanguage.googleapis.com/v1beta/models/gemini-2.5-flash-preview-09-2025:generateContent?key="
            ++ key.
Proof.
  assert (forall k, configured k = true ->
                    exists key, k = Some key /\ key <> "") as Hkey.
  { unfold configured. intros [key|]; simpl; [|discriminate].
    intros H. exists key. split; [reflexivity|].
    intros ->. discriminate. }
  unfold effects. intros [Hin | Hin].
  - destruct (String.eqb_spec (httpMethod event) "POST") as [Hm|Hm].
    2:{ rewrite (GetNewsPaths.not_post _ _ _ Hm) in Hin. destruct Hin. }
    destruct (configured API_KEY) eqn:Hk.
    2:{ rewrite (GetNewsPaths.key_missing _ _ _ Hm Hk) in Hin.
        destruct Hin. }
    destruct (JSON_parse (ToString (body event))) as [payload|] eqn:Hp.
    2:{ rewrite (GetNewsPaths.unparseable _ _ _ Hm Hk Hp) in Hin.
        destruct Hin. }
    destruct (has_contents payload) eqn:Hc.
    2:{ rewrite (GetNewsPaths.contents_missing _ _ _ _ Hm Hk Hp Hc) in Hin.
        destruct Hin. }
    rewrite (GetNewsPaths.dispatches _ _ _ _ Hm Hk Hp Hc) in Hin.
    rewrite <- requests_timeline in Hin.
    assert (req = GetNews.outbound API_KEY payload) as ->.
    { destruct (three_attempts_schedule API_KEY upstream payload)
        as [Hs | [Hs | [Hs | []]]];
        rewrite <- Hs in Hin; simpl in Hin; intuition congruence. }
    destruct (Hkey _ Hk) as (key & -> & Hne).
    split; [reflexivity|]. split; [reflexivity|].
    split; [eexists; reflexivity|].
    exists key. split; [reflexivity|]. split; [exact Hne|reflexivity].
  - destruct (configured API_KEY) eqn:Hk.
    2:{ rewrite (Part000Paths.key_not_configured _ _ _ Hk) in Hin.
        destruct Hin. }
    destruct (JSON_parse (or_default (body event) "{}")) as [parsed|] eqn:Hp.
    2:{ rewrite (Part000Paths.parse_throws _ _ _ Hk Hp) in Hin.
        destruct Hin. }
    destruct (Part000Paths.parsed_cases parsed)
      as [[e He] | [Hu | [payload Hi]]].
    + rewrite (Part000Paths.type_throws _ _ _ _ _ Hk Hp He) in Hin.
      destruct Hin.
    + rewrite (Part000Paths.rejects _ _ _ _ Hk Hp Hu) in Hin. destruct Hin.
    + rewrite (Part000Paths.translates _ _ _ _ _ Hk Hp Hi) in Hin.
      destruct (Part000Paths.dispatch_returns API_KEY upstream payload start)
        as (res & w' & Hrun & Hreq).
      rewrite Hrun in Hin. simpl in Hin. rewrite Hreq in Hin.
      destruct Hin as [<- | []].
      destruct (Hkey _ Hk) as (key & -> & Hne).
      split; [reflexivity|]. split; [reflexivity|].
      split; [eexists; reflexivity|].
      exists key. split; [reflexivity|]. split; [exact Hne|reflexivity].
Qed.

Lemma every_call_is_a_keyed_post_witness :
  method (GetNews.outbound sample_key raw_payload_value) = "POST"
  /\ req_headers (GetNews.outbound sample_key raw_payload_value) =
       [("Content-Type", "application/json")]
  /\ (exists payload,
         req_body (GetNews.outbound sample_key raw_payload_value) =
           JSON_stringify payload)
  /\ exists key,
       sample_key = Some key /\ key <> ""
       /\ url (GetNews.outbound sample_key raw_payload_value) =
            "https://generativelanguage.googleapis.com/v1beta/models/gemini-2.5-flash-preview-09-2025:generateContent?key="
            ++ key.
Proof.
  apply (every_call_is_a_keyed_post sample_key always_200
           (mkEvent "POST" (Body raw_payload_text))).
  left. vm_compute. left. reflexivity.
Defined.
